(** * Telemetry ingestion service: validator, processor, query and health lambdas

    A shallow embedding of the TypeScript sources

    - [src/utils/validation.ts]      ([isValidChargerId], [isValidTimestamp],
                                      [isFutureTimestamp]),
    - [src/lambda/validator/index.ts] ([validateEvent], [handler]),
    - [src/lambda/processor/index.ts] ([enrichEvent], [toStoredEvent], [handler]),
    - [src/lambda/query/index.ts]     ([publishQueryMetrics], [handler]),
    - [src/lambda/health/index.ts]    ([checkDynamoDBHealth], [checkDLQHealth],
                                      [handler]),

    together with the part of the ECMAScript [Date] object these functions
    rely on ([Date.parse] on the Date Time String Format, [toISOString],
    [getTime]).

    Conventions.
    - A JavaScript string is a [string]; a character stands for one code
      unit of the UTF-8 form of the text, which keeps emptiness, equality
      and membership of the ASCII class [A-Za-z0-9_-] as they are.
    - A time value is an integer number of milliseconds since the epoch
      ([Z]); a [Date] object is [option Z], [None] being the Invalid Date
      (time value NaN).  All time values are below 2^53 in magnitude, so
      the IEEE arithmetic of the source on them is exact.
    - Code that can throw returns a [Completion]; asynchronous handlers
      run in the monad [M] over a [World] that answers the calls to the
      AWS clients. *)

From Stdlib Require Import ZArith Lia Bool List String Ascii.
From Stdlib Require Import Floats.SpecFloat.
Import ListNotations.

Local Open Scope string_scope.
Local Open Scope Z_scope.

Set Warnings "-register-all".

(* ===================================================================== *)
(** ** JavaScript values *)
(* ===================================================================== *)

Module JS.

(** The values an [any] can hold after [JSON.parse] or inside a thrown
    error: a Number is an IEEE 754 binary64 value. *)
Inductive JsValue : Type :=
| JUndefined
| JNull
| JBool (b : bool)
| JNum (n : spec_float)
| JStr (s : string)
| JArr (items : list JsValue)
| JObj (fields : list (string * JsValue)).

(** [ToBoolean]: undefined, null, false, +0, -0, NaN and the empty string
    are falsy; every object (arrays included) is truthy. *)
Definition truthy (v : JsValue) : bool :=
  match v with
  | JUndefined | JNull => false
  | JBool b => b
  | JNum (S754_zero _) | JNum S754_nan => false
  | JNum _ => true
  | JStr s => negb (String.eqb s "")
  | JArr _ | JObj _ => true
  end.

(** [typeof v === 'string'] *)
Definition isString (v : JsValue) : bool :=
  match v with JStr _ => true | _ => false end.

Fixpoint assoc (k : string) (fields : list (string * JsValue)) : option JsValue :=
  match fields with
  | [] => None
  | (k', v) :: rest => if String.eqb k' k then Some v else assoc k rest
  end.

(** [o.k] on an object: an absent property reads as undefined. *)
Definition prop (fields : list (string * JsValue)) (k : string) : JsValue :=
  match assoc k fields with
  | Some v => v
  | None => JUndefined
  end.

(** The result of code that may throw. *)
Inductive Completion (A : Type) : Type :=
| Normal (a : A)
| Throw (e : JsValue).
Arguments Normal {A} a.
Arguments Throw {A} e.

Definition TypeError (msg : string) : JsValue :=
  JObj [("name", JStr "TypeError"); ("message", JStr msg)].

Definition RangeError (msg : string) : JsValue :=
  JObj [("name", JStr "RangeError"); ("message", JStr msg)].

(** [v.k] on any value: reading a property of undefined or null throws
    a TypeError; a primitive or an array has none of the properties read
    in this program. *)
Definition getProp (v : JsValue) (k : string) : Completion JsValue :=
  match v with
  | JUndefined | JNull => Throw (TypeError "Cannot read properties of undefined")
  | JObj fields => Normal (prop fields k)
  | _ => Normal JUndefined
  end.

End JS.

(* ===================================================================== *)
(** ** ECMAScript time values (ECMA-262, Date objects) *)
(* ===================================================================== *)

Module ESDate.

Definition msPerSecond : Z := 1000.
Definition msPerMinute : Z := 60000.
Definition msPerHour : Z := 3600000.
Definition msPerDay : Z := 86400000.

(** The range of a time value: 100,000,000 days on either side of the epoch. *)
Definition maxTime : Z := 8640000000000000.

Definition inTimeRange (t : Z) : bool := (- maxTime <=? t) && (t <=? maxTime).

(** [TimeClip]: a time value out of range becomes NaN. *)
Definition TimeClip (t : Z) : option Z := if inTimeRange t then Some t else None.

Definition Day (t : Z) : Z := t / msPerDay.
Definition TimeWithinDay (t : Z) : Z := t mod msPerDay.

Definition isLeapYear (y : Z) : bool :=
  (y mod 4 =? 0) && (negb (y mod 100 =? 0) || (y mod 400 =? 0)).

Definition DaysInYear (y : Z) : Z := if isLeapYear y then 366 else 365.

Definition DayFromYear (y : Z) : Z :=
  365 * (y - 1970) + (y - 1969) / 4 - (y - 1901) / 100 + (y - 1601) / 400.

(** [YearFromTime] is "the largest y with TimeFromYear(y) <= t"; it is
    computed from the mean length of a Gregorian year with one
    adjustment step, on the day number. *)
Definition YearFromDay (d : Z) : Z :=
  let y := 1970 + (d * 400) / 146097 in
  if d <? DayFromYear y then y - 1
  else if DayFromYear (y + 1) <=? d then y + 1
  else y.

Definition YearFromTime (t : Z) : Z := YearFromDay (Day t).

Definition InLeapYear (t : Z) : Z :=
  if isLeapYear (YearFromTime t) then 1 else 0.

Definition DayWithinYear (t : Z) : Z := Day t - DayFromYear (YearFromTime t).

(** Month number 0..11 of a day within a year ([leap] is 0 or 1). *)
Definition monthOfDay (leap dwy : Z) : Z :=
  if dwy <? 31 then 0
  else if dwy <? 59 + leap then 1
  else if dwy <? 90 + leap then 2
  else if dwy <? 120 + leap then 3
  else if dwy <? 151 + leap then 4
  else if dwy <? 181 + leap then 5
  else if dwy <? 212 + leap then 6
  else if dwy <? 243 + leap then 7
  else if dwy <? 273 + leap then 8
  else if dwy <? 304 + leap then 9
  else if dwy <? 334 + leap then 10
  else 11.

(** Number of days of the year before month [m] (0..11). *)
Definition daysBeforeMonth (leap m : Z) : Z :=
  if m =? 0 then 0
  else if m =? 1 then 31
  else if m =? 2 then 59 + leap
  else if m =? 3 then 90 + leap
  else if m =? 4 then 120 + leap
  else if m =? 5 then 151 + leap
  else if m =? 6 then 181 + leap
  else if m =? 7 then 212 + leap
  else if m =? 8 then 243 + leap
  else if m =? 9 then 273 + leap
  else if m =? 10 then 304 + leap
  else 334 + leap.

Definition MonthFromTime (t : Z) : Z := monthOfDay (InLeapYear t) (DayWithinYear t).

Definition DateFromTime (t : Z) : Z :=
  DayWithinYear t - daysBeforeMonth (InLeapYear t) (MonthFromTime t) + 1.

Definition HourFromTime (t : Z) : Z := (t / msPerHour) mod 24.
Definition MinFromTime (t : Z) : Z := (t / msPerMinute) mod 60.
Definition SecFromTime (t : Z) : Z := (t / msPerSecond) mod 60.
Definition msFromTime (t : Z) : Z := t mod msPerSecond.

Definition MakeTime (hour min sec ms : Z) : Z :=
  hour * msPerHour + min * msPerMinute + sec * msPerSecond + ms.

(** [MakeDay] for a month already in 0..11. *)
Definition MakeDay (year month date : Z) : Z :=
  DayFromYear year
  + daysBeforeMonth (if isLeapYear year then 1 else 0) month
  + date - 1.

Definition MakeDate (day time : Z) : Z := day * msPerDay + time.

Definition daysInMonth (year month : Z) : Z :=
  let leap := if isLeapYear year then 1 else 0 in
  (if month =? 11 then 365 + leap else daysBeforeMonth leap (month + 1))
  - daysBeforeMonth leap month.

(** *** Decimal fields *)

Definition digitChar (d : Z) : ascii := ascii_of_N (Z.to_N (48 + d)).

Definition digitVal (c : ascii) : option Z :=
  let n := Z.of_N (N_of_ascii c) in
  if (48 <=? n) && (n <=? 57) then Some (n - 48) else None.

(** The [w] low decimal digits of [v], most significant first: a field
    of the ISO format, padded with zeros. *)
Fixpoint fmtDigits (w : nat) (v : Z) : string :=
  match w with
  | O => EmptyString
  | S w' => String (digitChar ((v / 10 ^ Z.of_nat w') mod 10)) (fmtDigits w' v)
  end.

(** Reads exactly [w] decimal digits. *)
Fixpoint readDigits (w : nat) (acc : Z) (s : string) : option (Z * string) :=
  match w with
  | O => Some (acc, s)
  | S w' =>
      match s with
      | String c rest =>
          match digitVal c with
          | Some d => readDigits w' (10 * acc + d) rest
          | None => None
          end
      | EmptyString => None
      end
  end.

(** *** [Date.prototype.toISOString] on a valid time value

    YYYY-MM-DDTHH:mm:ss.sssZ, the year written with a sign and six
    digits when it is not in 0..9999. *)
Definition fmtYear (y : Z) : string :=
  if (0 <=? y) && (y <=? 9999) then fmtDigits 4 y
  else if y <? 0 then String "-" (fmtDigits 6 (- y))
  else String "+" (fmtDigits 6 y).

Definition isoString (t : Z) : string :=
  fmtYear (YearFromTime t) ++ "-" ++ fmtDigits 2 (MonthFromTime t + 1)
  ++ "-" ++ fmtDigits 2 (DateFromTime t)
  ++ "T" ++ fmtDigits 2 (HourFromTime t)
  ++ ":" ++ fmtDigits 2 (MinFromTime t)
  ++ ":" ++ fmtDigits 2 (SecFromTime t)
  ++ "." ++ fmtDigits 3 (msFromTime t) ++ "Z".

(** *** [Date.parse] on the Date Time String Format

    YYYY, YYYY-MM or YYYY-MM-DD (the year also as +YYYYYY or -YYYYYY, but
    not -000000), alone or followed by THH:mm, THH:mm:ss or
    THH:mm:ss.sss and then by nothing, Z, +HH:mm or -HH:mm. *)

Notation "'let?' x ':=' a 'in' b" :=
  (match a with Some x => b | None => None end)
  (at level 10, x pattern, a at level 100, b at level 200, only parsing).

Definition expect (c : ascii) (s : string) : option string :=
  match s with
  | String c' rest => if Ascii.eqb c' c then Some rest else None
  | EmptyString => None
  end.

Definition startsWith (c : ascii) (s : string) : bool :=
  match s with
  | String c' _ => Ascii.eqb c' c
  | EmptyString => false
  end.

Definition parseYear (s : string) : option (Z * string) :=
  if startsWith "+" s then
    let? rest := expect "+" s in readDigits 6 0 rest
  else if startsWith "-" s then
    let? rest := expect "-" s in
    let? (y, rest') := readDigits 6 0 rest in
    if y =? 0 then None else Some (- y, rest')
  else readDigits 4 0 s.

(** year, month (1..12), day of month and the rest of the input *)
Definition parseDate (s : string) : option (Z * Z * Z * string) :=
  let? (y, s1) := parseYear s in
  if startsWith "-" s1 then
    let? s2 := expect "-" s1 in
    let? (m, s3) := readDigits 2 0 s2 in
    if startsWith "-" s3 then
      let? s4 := expect "-" s3 in
      let? (d, s5) := readDigits 2 0 s4 in
      Some (y, m, d, s5)
    else Some (y, m, 1, s3)
  else Some (y, 1, 1, s1).

(** hour, minute, second, millisecond and the rest of the input *)
Definition parseTime (s : string) : option (Z * Z * Z * Z * string) :=
  let? (h, s1) := readDigits 2 0 s in
  let? s2 := expect ":" s1 in
  let? (mi, s3) := readDigits 2 0 s2 in
  if startsWith ":" s3 then
    let? s4 := expect ":" s3 in
    let? (sec, s5) := readDigits 2 0 s4 in
    if startsWith "." s5 then
      let? s6 := expect "." s5 in
      let? (ms, s7) := readDigits 3 0 s6 in
      Some (h, mi, sec, ms, s7)
    else Some (h, mi, sec, 0, s5)
  else Some (h, mi, 0, 0, s3).

Inductive Zone : Type :=
| ZoneLocal                 (* no offset written: local time *)
| ZoneUTC                   (* Z *)
| ZoneOffset (minutes : Z). (* +HH:mm or -HH:mm, minutes east of UTC *)

(** The UTC offset, which ends the input. *)
Definition parseZone (s : string) : option Zone :=
  match s with
  | EmptyString => Some ZoneLocal
  | String c rest =>
      if Ascii.eqb c "Z" then
        match rest with EmptyString => Some ZoneUTC | _ => None end
      else if Ascii.eqb c "+" || Ascii.eqb c "-" then
        let? (h, s1) := readDigits 2 0 rest in
        let? s2 := expect ":" s1 in
        let? (m, s3) := readDigits 2 0 s2 in
        match s3 with
        | EmptyString =>
            if (h <=? 23) && (m <=? 59) then
              Some (ZoneOffset ((if Ascii.eqb c "-" then -1 else 1) * (h * 60 + m)))
            else None
        | _ => None
        end
      else None
  end.

Definition legalDate (y m d : Z) : bool :=
  (1 <=? m) && (m <=? 12) && (1 <=? d) && (d <=? daysInMonth y (m - 1)).

(** 24:00:00.000 is the end of the day. *)
Definition legalTime (h mi sec ms : Z) : bool :=
  (h <=? 24) && (mi <=? 59) && (sec <=? 59)
  && ((h <? 24) || ((mi =? 0) && (sec =? 0) && (ms =? 0))).

Section Host.

(** What the host adds to the language: the local time zone adjustment
    (milliseconds, for a local time value) and the formats [Date.parse]
    accepts beyond the Date Time String Format, on which the language
    leaves the result to the implementation. *)
Variable LocalTZA : Z -> Z.
Variable legacyParse : string -> option Z.

Definition utcOf (zone : Zone) (t : Z) : Z :=
  match zone with
  | ZoneUTC => t
  | ZoneOffset minutes => t - minutes * msPerMinute
  | ZoneLocal => t - LocalTZA t
  end.

(** [None] when [s] is not an instance of the format (a field out of its
    bounds included); otherwise the time value, or NaN when it is out of
    range.  A date-only form is UTC. *)
Definition parseISO (s : string) : option (option Z) :=
  let? (y, m, d, s1) := parseDate s in
  if negb (legalDate y m d) then None
  else
    let day := MakeDay y (m - 1) d in
    match s1 with
    | EmptyString => Some (TimeClip (MakeDate day 0))
    | String c s2 =>
        if Ascii.eqb c "T" then
          let? (h, mi, sec, ms, s3) := parseTime s2 in
          let? zone := parseZone s3 in
          if negb (legalTime h mi sec ms) then None
          else Some (TimeClip (utcOf zone (MakeDate day (MakeTime h mi sec ms))))
        else None
    end.

(** [Date.parse] as [new Date(s)] uses it: the format first, the
    implementation's own formats otherwise, the time value clipped to
    the range of a Date.  [None] is NaN. *)
Definition Date_parse (s : string) : option Z :=
  match parseISO s with
  | Some r => r
  | None =>
      match legacyParse s with
      | Some t => TimeClip t
      | None => None
      end
  end.

End Host.

(** A [Date] object: its time value, [None] for the Invalid Date. *)
Definition Date : Type := option Z.

(** [date.toISOString()]: throws a RangeError on the Invalid Date. *)
Definition toISOString (d : Date) : JS.Completion string :=
  match d with
  | Some t => JS.Normal (isoString t)
  | None => JS.Throw (JS.RangeError "Invalid time value")
  end.

End ESDate.

(* ===================================================================== *)
(** ** src/types/telemetry.ts *)
(* ===================================================================== *)

Module Telemetry.
Import JS.

(** The optional [data] is a [JsValue], [JUndefined] when absent: it is
    handed on and never inspected. *)
Record ValidatedEvent : Type := {
  ve_chargerId : string;
  ve_timestamp : ESDate.Date;
  ve_data : JsValue
}.

Record ProcessedMetadata : Type := {
  pm_receivedAt : ESDate.Date;
  pm_processedAt : ESDate.Date
}.

Record ProcessedEvent : Type := {
  pe_eventId : string;
  pe_chargerId : string;
  pe_timestamp : ESDate.Date;
  pe_data : JsValue;
  pe_metadata : ProcessedMetadata
}.

Record StoredMetadata : Type := {
  sm_receivedAt : string;
  sm_processedAt : string
}.

Record StoredEvent : Type := {
  se_eventId : string;
  se_chargerId : string;
  se_timestamp : string;
  se_data : JsValue;
  se_metadata : StoredMetadata;
  se_ttl : Z
}.

End Telemetry.

(* ===================================================================== *)
(** ** The Lambda runtime: clock, identifiers and the AWS clients *)
(* ===================================================================== *)

Module Runtime.
Import JS Telemetry.

Record MetricDatum : Type := {
  MetricName : string;
  Value : Z;
  Unit : string;
  Timestamp : Z;
  Dimensions : option (list (string * string))
}.

(** A command sent through one of the SDK clients. *)
Inductive Call : Type :=
| PutMetricData (namespace : string) (data : list MetricDatum)
| Invoke (functionName invocationType : string) (payload : ValidatedEvent)
| Put (tableName : string) (item : StoredEvent)
| Query (tableName chargerId : string)
| DescribeTable (tableName : string)
| GetQueueAttributes (queueUrl : string).

(** What a run leaves behind: console lines (level and first argument)
    and the commands sent, in order. *)
Inductive Effect : Type :=
| Console (level label : string)
| Sent (c : Call).

(** The surroundings of a run.  The answers of the services are indexed
    by the number of calls awaited so far, so that a service may answer
    the same command differently from one call to the next. *)
Record Env : Type := {
  LocalTZA : Z -> Z;
  legacyParse : string -> option Z;
  randomUUID : nat -> string;
  latency : nat -> nat;
  env_TABLE_NAME : option string;
  env_DLQ_URL : option string;
  env_PROCESSOR_LAMBDA_NAME : option string;
  cloudwatch : nat -> list MetricDatum -> Completion unit;
  lambda : nat -> string -> ValidatedEvent -> Completion unit;
  dynamoPut : nat -> string -> StoredEvent -> Completion unit;
  dynamoQuery : nat -> string -> string -> Completion (option (list JsValue));
  dynamoDescribe : nat -> string -> Completion (option string);
  sqsAttributes : nat -> string -> Completion (option string)
}.

(** The clock (milliseconds), the number of calls awaited, the number of
    identifiers drawn and the trace.  The clock moves while a call is
    awaited and stands still in between: synchronous code is taken to
    run in no time, so that two readings with no call between them are
    equal.  The source reads the clock afresh each time: the equality of
    two such readings, and the exact value of a duration, are
    conventions of the model and not facts about the code. *)
Record World : Type := {
  time : Z;
  awaits : nat;
  draws : nat;
  trace : list Effect
}.

Definition M (A : Type) : Type := Env -> World -> Completion A * World.

Definition ret {A} (a : A) : M A := fun _ w => (Normal a, w).

Definition bind {A B} (m : M A) (k : A -> M B) : M B :=
  fun env w =>
    match m env w with
    | (Normal a, w') => k a env w'
    | (Throw e, w') => (Throw e, w')
    end.

Definition throw {A} (e : JsValue) : M A := fun _ w => (Throw e, w).

(** try { m } catch (error) { h error } *)
Definition try_catch {A} (m : M A) (h : JsValue -> M A) : M A :=
  fun env w =>
    match m env w with
    | (Normal a, w') => (Normal a, w')
    | (Throw e, w') => h e env w'
    end.

Definition lift {A} (c : Completion A) : M A := fun _ w => (c, w).

Definition ask : M Env := fun env w => (Normal env, w).

Declare Scope m_scope.
Delimit Scope m_scope with M.
Notation "x <- m ;; k" := (bind m (fun x => k))
  (at level 61, m at next level, right associativity) : m_scope.
Notation "m ;; k" := (bind m (fun _ => k))
  (at level 61, right associativity) : m_scope.

(** [Date.now()], and the time value of [new Date()]. *)
Definition Date_now : M Z := fun _ w => (Normal (time w), w).

(** [crypto.randomUUID()] *)
Definition drawUUID : M string :=
  fun env w =>
    (Normal (randomUUID env (draws w)),
     {| time := time w; awaits := awaits w; draws := S (draws w); trace := trace w |}).

Definition console (level label : string) : M unit :=
  fun _ w =>
    (Normal tt,
     {| time := time w; awaits := awaits w; draws := draws w;
        trace := trace w ++ [Console level label] |}).

(** [await client.send(command)]: the command is recorded, the clock
    moves on by the time the call takes, and the service answers. *)
Definition send {A} (c : Call) (answer : Env -> nat -> Completion A) : M A :=
  fun env w =>
    (answer env (awaits w),
     {| time := time w + Z.of_nat (latency env (awaits w));
        awaits := S (awaits w); draws := draws w;
        trace := trace w ++ [Sent c] |}).

(** [process.env.NAME || fallback] *)
Definition envOr (v : option string) (fallback : string) : string :=
  match v with
  | Some s => if String.eqb s "" then fallback else s
  | None => fallback
  end.

(** [new Date(s)] for a string [s] *)
Definition newDate (env : Env) (s : string) : ESDate.Date :=
  ESDate.Date_parse (LocalTZA env) (legacyParse env) s.

(** The trace at the end of a run. *)
Definition effects {A} (r : Completion A * World) : list Effect := trace (snd r).

End Runtime.

(* ===================================================================== *)
(** ** src/utils/validation.ts *)
(* ===================================================================== *)

Module Validation.
Import JS Runtime.
Local Open Scope m_scope.

(** The character class [A-Za-z0-9_-] *)
Definition inClass (c : ascii) : bool :=
  let n := Z.of_N (N_of_ascii c) in
  ((65 <=? n) && (n <=? 90)) || ((97 <=? n) && (n <=? 122))
  || ((48 <=? n) && (n <=? 57)) || (n =? 95) || (n =? 45).

Fixpoint allInClass (s : string) : bool :=
  match s with
  | EmptyString => true
  | String c rest => inClass c && allInClass rest
  end.

(** [/^[A-Za-z0-9_-]+$/.test(s)]: one character of the class or more,
    from the start of the input to its end. *)
Definition pattern_test (s : string) : bool :=
  match s with
  | EmptyString => false
  | String c rest => inClass c && allInClass rest
  end.

Definition isValidChargerId (chargerId : JsValue) : bool :=
  if negb (truthy chargerId) || negb (isString chargerId) then false
  else
    match chargerId with
    | JStr s => pattern_test s
    | _ => false
    end.

Definition getTime (d : ESDate.Date) : option Z := d.

Definition isNaN (x : option Z) : bool :=
  match x with Some _ => false | None => true end.

(** The body of the [try]: [!isNaN(date.getTime()) && date.toISOString()
    === timestamp], the right operand evaluated only when the left one
    holds. *)
Definition roundTrips (date : ESDate.Date) (timestamp : string) : Completion bool :=
  if negb (isNaN (getTime date)) then
    match ESDate.toISOString date with
    | Normal iso => Normal (String.eqb iso timestamp)
    | Throw e => Throw e
    end
  else Normal false.

Definition isValidTimestamp (env : Env) (timestamp : JsValue) : bool :=
  if negb (truthy timestamp) || negb (isString timestamp) then false
  else
    match timestamp with
    | JStr s =>
        match roundTrips (newDate env s) s with
        | Normal b => b
        | Throw _ => false
        end
    | _ => false
    end.

Definition clockSkewMs : Z := 5 * 60 * 1000.

(** A comparison with NaN is false. *)
Definition gtTime (x : option Z) (y : Z) : bool :=
  match x with Some t => y <? t | None => false end.

Definition isFutureTimestamp (timestamp : ESDate.Date) : M bool :=
  now <- Date_now ;;
  ret (gtTime (getTime timestamp) (now + clockSkewMs)).

End Validation.

(* ===================================================================== *)
(** ** src/lambda/validator/index.ts *)
(* ===================================================================== *)

Module Validator.
Import JS Telemetry Runtime Validation.
Local Open Scope m_scope.

Definition METRICS_NAMESPACE : string := "TelemetryService".

Definition PROCESSOR_LAMBDA_NAME (env : Env) : string :=
  envOr (env_PROCESSOR_LAMBDA_NAME env) "telemetry-processor".

(** The [error] text, which only goes to the log, is left out. *)
Record ValidationResult : Type := {
  isValid : bool;
  rejectionReason : option string;
  validatedEvent : option ValidatedEvent
}.

Definition rejected (reason : string) : ValidationResult :=
  {| isValid := false; rejectionReason := Some reason; validatedEvent := None |}.

(** The event is the object of the IoT message.  Once both format checks
    have passed, the two fields are strings. *)
Definition validateEvent (event : list (string * JsValue)) : M ValidationResult :=
  if negb (truthy (prop event "chargerId")) then
    ret (rejected "MissingChargerId")
  else if negb (truthy (prop event "timestamp")) then
    ret (rejected "MissingTimestamp")
  else if negb (isValidChargerId (prop event "chargerId")) then
    ret (rejected "InvalidChargerIdFormat")
  else
    env <- ask ;;
    if negb (isValidTimestamp env (prop event "timestamp")) then
      ret (rejected "InvalidTimestampFormat")
    else
      match prop event "chargerId", prop event "timestamp" with
      | JStr chargerId, JStr timestamp =>
          let parsedTimestamp := newDate env timestamp in
          future <- isFutureTimestamp parsedTimestamp ;;
          if future then ret (rejected "FutureTimestamp")
          else
            ret {| isValid := true;
                   rejectionReason := None;
                   validatedEvent :=
                     Some {| ve_chargerId := chargerId;
                             ve_timestamp := parsedTimestamp;
                             ve_data := prop event "data" |} |}
      | _, _ => throw (TypeError "unreachable: both fields are strings")
      end.

Definition invokeProcessorLambda (validatedEvent : ValidatedEvent) : M unit :=
  env <- ask ;;
  send (Invoke (PROCESSOR_LAMBDA_NAME env) "Event" validatedEvent)
       (fun env n => lambda env n (PROCESSOR_LAMBDA_NAME env) validatedEvent).

Definition publishValidationMetrics (validated : bool) (rejectionReason : option string)
  : M unit :=
  now <- Date_now ;;
  let metricData :=
    if validated then
      [ {| MetricName := "EventsValidated"; Value := 1; Unit := "Count";
           Timestamp := now; Dimensions := None |} ]
    else
      [ {| MetricName := "EventsRejected"; Value := 1; Unit := "Count";
           Timestamp := now;
           Dimensions :=
             match rejectionReason with
             | Some r =>
                 if String.eqb r "" then None else Some [("RejectionReason", r)]
             | None => None
             end |} ] in
  try_catch
    (send (PutMetricData METRICS_NAMESPACE metricData)
          (fun env n => cloudwatch env n metricData))
    (fun _ => console "error" "Failed to publish validation metrics:").

Definition handler (event : list (string * JsValue)) : M unit :=
  console "log" "Received event:" ;;
  validationResult <- validateEvent event ;;
  if negb (isValid validationResult) then
    console "error" "Validation error:" ;;
    publishValidationMetrics false (rejectionReason validationResult) ;;
    ret tt
  else
    publishValidationMetrics true None ;;
    try_catch
      (match validatedEvent validationResult with
       | Some ve =>
           invokeProcessorLambda ve ;;
           console "log" "Successfully forwarded event to Processor Lambda:"
       | None => throw (TypeError "Cannot read properties of undefined")
       end)
      (fun error =>
         console "error" "Failed to invoke Processor Lambda:" ;;
         throw error).

End Validator.

(* ===================================================================== *)
(** ** src/lambda/processor/index.ts *)
(* ===================================================================== *)

Module Processor.
Import JS Telemetry Runtime.
Local Open Scope m_scope.

Definition TABLE_NAME (env : Env) : string :=
  envOr (env_TABLE_NAME env) "TelemetryEvents".
Definition METRICS_NAMESPACE : string := "TelemetryService".
Definition TTL_DAYS : Z := 90.

(** [new Date(validatedEvent.timestamp)] copies the time value of the
    Date it is given. *)
Definition enrichEvent (validatedEvent : ValidatedEvent) : M ProcessedEvent :=
  now <- Date_now ;;
  eventId <- drawUUID ;;
  ret {| pe_eventId := eventId;
         pe_chargerId := ve_chargerId validatedEvent;
         pe_timestamp := ve_timestamp validatedEvent;
         pe_data := ve_data validatedEvent;
         pe_metadata := {| pm_receivedAt := Some now; pm_processedAt := Some now |} |}.

(** [Math.floor(Date.now() / 1000)]: the quotient of a time value by 1000
    is rounded to a double below the next integer, so the floor is the
    integer quotient. *)
Definition toStoredEvent (processedEvent : ProcessedEvent) : M StoredEvent :=
  nowMs <- Date_now ;;
  let ttl := nowMs / 1000 + TTL_DAYS * 24 * 60 * 60 in
  timestamp <- lift (ESDate.toISOString (pe_timestamp processedEvent)) ;;
  receivedAt <- lift (ESDate.toISOString (pm_receivedAt (pe_metadata processedEvent))) ;;
  processedAt <- lift (ESDate.toISOString (pm_processedAt (pe_metadata processedEvent))) ;;
  ret {| se_eventId := pe_eventId processedEvent;
         se_chargerId := pe_chargerId processedEvent;
         se_timestamp := timestamp;
         se_data := pe_data processedEvent;
         se_metadata := {| sm_receivedAt := receivedAt; sm_processedAt := processedAt |};
         se_ttl := ttl |}.

Definition storeEvent (storedEvent : StoredEvent) : M unit :=
  env <- ask ;;
  send (Put (TABLE_NAME env) storedEvent)
       (fun env n => dynamoPut env n (TABLE_NAME env) storedEvent).

Definition publishMetrics (processingDuration : Z) (status : string) : M unit :=
  now <- Date_now ;;
  let metricData :=
    [ {| MetricName := "ProcessingDuration"; Value := processingDuration;
         Unit := "Milliseconds"; Timestamp := now; Dimensions := None |};
      {| MetricName := "EventsProcessed"; Value := 1; Unit := "Count";
         Timestamp := now; Dimensions := Some [("Status", status)] |} ] in
  try_catch
    (send (PutMetricData METRICS_NAMESPACE metricData)
          (fun env n => cloudwatch env n metricData))
    (fun _ => console "error" "Failed to publish metrics:").

Record Response : Type := {
  statusCode : Z;
  body_message : string;
  body_eventId : string
}.

Definition handler (event : ValidatedEvent) : M Response :=
  startTime <- Date_now ;;
  console "log" "Processing validated event:" ;;
  try_catch
    (processedEvent <- enrichEvent event ;;
     console "log" "Enriched event with metadata:" ;;
     storedEvent <- toStoredEvent processedEvent ;;
     storeEvent storedEvent ;;
     console "log" "Successfully stored event in DynamoDB:" ;;
     endTime <- Date_now ;;
     publishMetrics (endTime - startTime) "success" ;;
     ret {| statusCode := 200;
            body_message := "Event processed successfully";
            body_eventId := pe_eventId processedEvent |})
    (fun error =>
       console "error" "Failed to process event:" ;;
       endTime <- Date_now ;;
       publishMetrics (endTime - startTime) "failure" ;;
       throw error).

End Processor.

(* ===================================================================== *)
(** ** src/lambda/query/index.ts *)
(* ===================================================================== *)

Module QueryService.
Import JS Telemetry Runtime.
Local Open Scope m_scope.

Definition TABLE_NAME (env : Env) : string :=
  envOr (env_TABLE_NAME env) "TelemetryEvents".
Definition METRICS_NAMESPACE : string := "TelemetryService".

Definition publishQueryMetrics (duration : Z) : M unit :=
  now <- Date_now ;;
  let metricData :=
    [ {| MetricName := "QueryDuration"; Value := duration;
         Unit := "Milliseconds"; Timestamp := now; Dimensions := None |} ] in
  try_catch
    (send (PutMetricData METRICS_NAMESPACE metricData)
          (fun env n => cloudwatch env n metricData))
    (fun _ => console "error" "Failed to publish query metrics:").

(** The part of the API Gateway event the handler reads; [None] is a
    null [pathParameters]. *)
Record APIGatewayProxyEvent : Type := {
  pathParameters : option (list (string * string))
}.

Fixpoint lookup (k : string) (ps : list (string * string)) : option string :=
  match ps with
  | [] => None
  | (k', v) :: rest => if String.eqb k' k then Some v else lookup k rest
  end.

Record QueryResponse : Type := {
  qr_chargerId : JsValue;
  qr_timestamp : JsValue;
  qr_data : JsValue;
  qr_receivedAt : JsValue;
  qr_processedAt : JsValue
}.

(** The object given to [JSON.stringify] for the body. *)
Inductive Body : Type :=
| Found (response : QueryResponse)
| StatusMessage (status message : string).

Record APIGatewayProxyResult : Type := {
  statusCode : Z;
  headers : list (string * string);
  body : Body
}.

Definition jsonHeaders : list (string * string) :=
  [("Content-Type", "application/json")].

Definition badRequest : APIGatewayProxyResult :=
  {| statusCode := 400; headers := jsonHeaders;
     body := StatusMessage "error" "Missing required path parameter: chargerId" |}.

Definition notFound : APIGatewayProxyResult :=
  {| statusCode := 404; headers := jsonHeaders;
     body := StatusMessage "not_found" "No telemetry found for charger" |}.

Definition internalError : APIGatewayProxyResult :=
  {| statusCode := 500; headers := jsonHeaders;
     body := StatusMessage "error" "Internal server error" |}.

(** [event.pathParameters?.chargerId] *)
Definition requestedChargerId (event : APIGatewayProxyEvent) : option string :=
  match pathParameters event with
  | Some ps => lookup "chargerId" ps
  | None => None
  end.

(** The response built from the first item: reading [metadata.receivedAt]
    throws when the item has no [metadata]. *)
Definition formatResponse (storedEvent : JsValue) : Completion QueryResponse :=
  match getProp storedEvent "chargerId",
        getProp storedEvent "timestamp",
        getProp storedEvent "data",
        getProp storedEvent "metadata" with
  | Normal chargerId, Normal timestamp, Normal data, Normal metadata =>
      match getProp metadata "receivedAt", getProp metadata "processedAt" with
      | Normal receivedAt, Normal processedAt =>
          Normal {| qr_chargerId := chargerId;
                    qr_timestamp := timestamp;
                    qr_data := data;
                    qr_receivedAt := receivedAt;
                    qr_processedAt := processedAt |}
      | Throw e, _ | _, Throw e => Throw e
      end
  | Throw e, _, _, _ | _, Throw e, _, _ | _, _, Throw e, _ | _, _, _, Throw e => Throw e
  end.

Definition handler (event : APIGatewayProxyEvent) : M APIGatewayProxyResult :=
  startTime <- Date_now ;;
  try_catch
    (match requestedChargerId event with
     | None => ret badRequest
     | Some chargerId =>
         if String.eqb chargerId "" then ret badRequest
         else
           env <- ask ;;
           items <- send (Query (TABLE_NAME env) chargerId)
                         (fun env n => dynamoQuery env n (TABLE_NAME env) chargerId) ;;
           queryDuration <- (endTime <- Date_now ;; ret (endTime - startTime)) ;;
           publishQueryMetrics queryDuration ;;
           match items with
           | None | Some [] => ret notFound
           | Some (storedEvent :: _) =>
               response <- lift (formatResponse storedEvent) ;;
               ret {| statusCode := 200; headers := jsonHeaders;
                      body := Found response |}
           end
     end)
    (fun error =>
       console "error" "Error querying telemetry:" ;;
       queryDuration <- (endTime <- Date_now ;; ret (endTime - startTime)) ;;
       publishQueryMetrics queryDuration ;;
       ret internalError).

End QueryService.

(* ===================================================================== *)
(** ** src/lambda/health/index.ts *)
(* ===================================================================== *)

Module Health.
Import JS Runtime.
Local Open Scope m_scope.

Definition TABLE_NAME (env : Env) : string :=
  envOr (env_TABLE_NAME env) "TelemetryEvents".

(** [!DLQ_URL]: the variable is unset or empty. *)
Definition noDLQ (env : Env) : bool :=
  match env_DLQ_URL env with
  | Some url => String.eqb url ""
  | None => true
  end.

Inductive Status : Type := healthy | degraded | unhealthy.

Definition Status_eqb (a b : Status) : bool :=
  match a, b with
  | healthy, healthy | degraded, degraded | unhealthy, unhealthy => true
  | _, _ => false
  end.

(** [dlqDepth] is a Number: [None] is NaN. *)
Record ComponentStatus : Type := {
  dynamodb : Status;
  dlq : option Status;
  dlqDepth : option (option Z)
}.

Record HealthResponse : Type := {
  status : Status;
  components : ComponentStatus
}.

Record APIGatewayProxyResult : Type := {
  statusCode : Z;
  headers : list (string * string);
  body : HealthResponse
}.

Definition jsonHeaders : list (string * string) :=
  [("Content-Type", "application/json")].

(** *** [parseInt(s, 10)]: leading white space, an optional sign, then
    the longest run of decimal digits; NaN ([None]) when there is none.

    White space is every WhiteSpace and LineTerminator code point of the
    language, read in the UTF-8 form of the string.  The value is the
    integer the digits denote; JavaScript returns the nearest Number,
    which is that very integer for every numeral below 2^53. *)

(** TAB, LF, VT, FF, CR and SP *)
Definition isWhiteSpace (c : ascii) : bool :=
  let n := Z.of_N (N_of_ascii c) in
  ((9 <=? n) && (n <=? 13)) || (n =? 32).

(** U+00A0 (no-break space) is C2 A0. *)
Definition isWhiteSpace2 (c1 c2 : ascii) : bool :=
  (Z.of_N (N_of_ascii c1) =? 194) && (Z.of_N (N_of_ascii c2) =? 160).

(** U+1680 is E1 9A 80; U+2000..U+200A, U+2028, U+2029 and U+202F are
    E2 80 80..8A, A8, A9 and AF; U+205F is E2 81 9F; U+3000 is E3 80 80;
    U+FEFF (byte order mark) is EF BB BF. *)
Definition isWhiteSpace3 (c1 c2 c3 : ascii) : bool :=
  let n1 := Z.of_N (N_of_ascii c1) in
  let n2 := Z.of_N (N_of_ascii c2) in
  let n3 := Z.of_N (N_of_ascii c3) in
  ((n1 =? 225) && (n2 =? 154) && (n3 =? 128))
  || ((n1 =? 226) && (n2 =? 128)
      && (((128 <=? n3) && (n3 <=? 138)) || (n3 =? 168) || (n3 =? 169) || (n3 =? 175)))
  || ((n1 =? 226) && (n2 =? 129) && (n3 =? 159))
  || ((n1 =? 227) && (n2 =? 128) && (n3 =? 128))
  || ((n1 =? 239) && (n2 =? 187) && (n3 =? 191)).

Fixpoint skipWhiteSpace (s : string) : string :=
  match s with
  | String c1 rest1 =>
      if isWhiteSpace c1 then skipWhiteSpace rest1
      else
        match rest1 with
        | String c2 rest2 =>
            if isWhiteSpace2 c1 c2 then skipWhiteSpace rest2
            else
              match rest2 with
              | String c3 rest3 =>
                  if isWhiteSpace3 c1 c2 c3 then skipWhiteSpace rest3 else s
              | EmptyString => s
              end
        | EmptyString => s
        end
  | EmptyString => s
  end.

(** The value of the leading digits of [s] after [acc], and whether a
    digit was read. *)
Fixpoint leadingDigits (acc : Z) (seen : bool) (s : string) : Z * bool :=
  match s with
  | String c rest =>
      match ESDate.digitVal c with
      | Some d => leadingDigits (10 * acc + d) true rest
      | None => (acc, seen)
      end
  | EmptyString => (acc, seen)
  end.

Definition parseInt10 (s : string) : option Z :=
  let s1 := skipWhiteSpace s in
  let '(sign, s2) :=
    match s1 with
    | String c rest =>
        if Ascii.eqb c "-" then (-1, rest)
        else if Ascii.eqb c "+" then (1, rest)
        else (1, s1)
    | EmptyString => (1, s1)
    end in
  match leadingDigits 0 false s2 with
  | (n, true) => Some (sign * n)
  | (_, false) => None
  end.

(** [depth > 10], false on NaN *)
Definition gt10 (depth : option Z) : bool :=
  match depth with Some n => 10 <? n | None => false end.

Definition checkDynamoDBHealth : M Status :=
  try_catch
    (env <- ask ;;
     tableStatus <- send (DescribeTable (TABLE_NAME env))
                         (fun env n => dynamoDescribe env n (TABLE_NAME env)) ;;
     match tableStatus with
     | Some st => if String.eqb st "ACTIVE" then ret healthy else ret unhealthy
     | None => ret unhealthy
     end)
    (fun _ =>
       console "error" "Error checking DynamoDB health:" ;;
       ret unhealthy).

(** [response.Attributes?.ApproximateNumberOfMessages || '0'] *)
Definition orZero (attribute : option string) : string :=
  match attribute with
  | Some a => if String.eqb a "" then "0" else a
  | None => "0"
  end.

Definition checkDLQHealth : M (Status * option Z) :=
  env <- ask ;;
  match env_DLQ_URL env with
  | Some url =>
      if noDLQ env then ret (healthy, Some 0)
      else
        try_catch
          (attribute <- send (GetQueueAttributes url)
                             (fun env n => sqsAttributes env n url) ;;
           let depth := parseInt10 (orZero attribute) in
           let status := if gt10 depth then degraded else healthy in
           ret (status, depth))
          (fun _ =>
             console "error" "Error checking DLQ health:" ;;
             ret (healthy, Some 0))
  | None => ret (healthy, Some 0)
  end.

(** The two checks of [Promise.all] are run one after the other: each
    catches its own failures and neither reads what the other writes. *)
Definition handler : M APIGatewayProxyResult :=
  try_catch
    (dynamoHealth <- checkDynamoDBHealth ;;
     dlqHealth <- checkDLQHealth ;;
     env <- ask ;;
     let components :=
       if noDLQ env then
         {| dynamodb := dynamoHealth; dlq := None; dlqDepth := None |}
       else
         {| dynamodb := dynamoHealth;
            dlq := Some (fst dlqHealth);
            dlqDepth := Some (snd dlqHealth) |} in
     let overallStatus :=
       if Status_eqb dynamoHealth unhealthy then unhealthy
       else if Status_eqb (fst dlqHealth) degraded then degraded
       else healthy in
     ret {| statusCode := 200; headers := jsonHeaders;
            body := {| status := overallStatus; components := components |} |})
    (fun _ =>
       console "error" "Error in health check:" ;;
       ret {| statusCode := 500; headers := jsonHeaders;
              body := {| status := unhealthy;
                         components := {| dynamodb := unhealthy;
                                          dlq := None; dlqDepth := None |} |} |}).

End Health.

(* ===================================================================== *)
(** ** The validator's checks as the specification lists them *)
(* ===================================================================== *)

Module Checks.
Import JS Runtime Validation.

(** 1 and 2: the field is present and non-empty. *)
Definition present (v : JsValue) : bool := truthy v.

(** 3: the identifier matches [^[A-Za-z0-9_-]+$]. *)
Definition matchesPattern (v : JsValue) : bool :=
  match v with
  | JStr s => pattern_test s
  | _ => false
  end.

(** 4: the timestamp parses to an instant whose serialization is the
    input string itself. *)
Definition canonical (env : Env) (v : JsValue) : bool :=
  match v with
  | JStr s =>
      match newDate env s with
      | Some t => String.eqb (ESDate.isoString t) s
      | None => false
      end
  | _ => false
  end.

(** 5: the parsed timestamp is at most [now] plus five minutes; a value
    that does not parse is not later than anything. *)
Definition notInFuture (env : Env) (now : Z) (v : JsValue) : bool :=
  match v with
  | JStr s =>
      match newDate env s with
      | Some t => t <=? now + 5 * 60 * 1000
      | None => true
      end
  | _ => true
  end.

(** The reasons of all the checks an event violates, each check taken on
    its own, in the documented order. *)
Definition violated (env : Env) (now : Z) (event : list (string * JsValue))
  : list string :=
  let chargerId := prop event "chargerId" in
  let timestamp := prop event "timestamp" in
  (if present chargerId then [] else ["MissingChargerId"])
  ++ (if present timestamp then [] else ["MissingTimestamp"])
  ++ (if matchesPattern chargerId then [] else ["InvalidChargerIdFormat"])
  ++ (if canonical env timestamp then [] else ["InvalidTimestampFormat"])
  ++ (if notInFuture env now timestamp then [] else ["FutureTimestamp"]).

(** The measurement of a rejected event. *)
Definition rejectedDatum (now : Z) (reason : string) : MetricDatum :=
  {| MetricName := "EventsRejected"; Value := 1; Unit := "Count"; Timestamp := now;
     Dimensions := if String.eqb reason "" then None
                   else Some [("RejectionReason", reason)] |}.

(** The measurement of a query. *)
Definition queryDatum (now duration : Z) : MetricDatum :=
  {| MetricName := "QueryDuration"; Value := duration; Unit := "Milliseconds";
     Timestamp := now; Dimensions := None |}.

(** The request names no charger: [pathParameters] is null, or holds no
    chargerId, or an empty one. *)
Definition noChargerId (event : QueryService.APIGatewayProxyEvent) : Prop :=
  QueryService.requestedChargerId event = None
  \/ QueryService.requestedChargerId event = Some "".

(** The overall verdict of the health check as the specification words
    it: unhealthy when the store is, otherwise degraded when the depth of
    the dead-letter queue exceeds 10, otherwise healthy. *)
Definition verdict (store : Health.Status) (depth : option Z) : Health.Status :=
  match store with
  | Health.unhealthy => Health.unhealthy
  | _ => if Health.gt10 depth then Health.degraded else Health.healthy
  end.

(** The answer of the dead-letter check: healthy with depth 0 without a
    queue or when the queue cannot be read. *)
Definition dlqAnswer (env : Env) (w : World) : Health.Status * option Z :=
  match env_DLQ_URL env with
  | Some url =>
      if Health.noDLQ env then (Health.healthy, Some 0)
      else
        match sqsAttributes env (awaits w) url with
        | Normal attribute =>
            let depth := Health.parseInt10 (Health.orZero attribute) in
            (if Health.gt10 depth then Health.degraded else Health.healthy, depth)
        | Throw _ => (Health.healthy, Some 0)
        end
  | None => (Health.healthy, Some 0)
  end.

(** Whether a trace holds a [QueryDuration] measurement. *)
Definition isQueryDuration (e : Effect) : bool :=
  match e with
  | Sent (PutMetricData _ data) =>
      existsb (fun d => String.eqb (MetricName d) "QueryDuration") data
  | _ => false
  end.

Definition emitsQueryDuration (tr : list Effect) : bool := existsb isQueryDuration tr.

(** Whether a trace holds a command to the processor or to the table. *)
Definition isWrite (e : Effect) : bool :=
  match e with
  | Sent (Invoke _ _ _) | Sent (Put _ _) => true
  | _ => false
  end.

End Checks.

(* ===================================================================== *)
(** ** Sample surroundings and events *)
(* ===================================================================== *)

Module Sample.
Import JS Telemetry Runtime.

(** Every service answers; the dead-letter queue holds 11 messages. *)
Definition env : Env := {|
  LocalTZA := fun _ => 0;
  legacyParse := fun _ => None;
  randomUUID := fun n => if Nat.eqb n 0 then "6f1c0a52-0000-4000-8000-000000000000"
                         else "6f1c0a52-0000-4000-8000-000000000001";
  latency := fun _ => 7%nat;
  env_TABLE_NAME := None;
  env_DLQ_URL := Some "https://sqs.eu-west-1.amazonaws.com/1/telemetry-processor-dlq";
  env_PROCESSOR_LAMBDA_NAME := None;
  cloudwatch := fun _ _ => Normal tt;
  lambda := fun _ _ _ => Normal tt;
  dynamoPut := fun _ _ _ => Normal tt;
  dynamoQuery := fun _ _ _ => Normal (Some []);
  dynamoDescribe := fun _ _ => Normal (Some "ACTIVE");
  sqsAttributes := fun _ _ => Normal (Some "11")
|}.

Definition storeError : JsValue :=
  JObj [("name", JStr "ProvisionedThroughputExceededException");
        ("message", JStr "The level of configured provisioned throughput was exceeded")].

(** The same surroundings with a table that rejects every command. *)
Definition envStoreDown : Env := {|
  LocalTZA := LocalTZA env;
  legacyParse := legacyParse env;
  randomUUID := randomUUID env;
  latency := latency env;
  env_TABLE_NAME := env_TABLE_NAME env;
  env_DLQ_URL := env_DLQ_URL env;
  env_PROCESSOR_LAMBDA_NAME := env_PROCESSOR_LAMBDA_NAME env;
  cloudwatch := cloudwatch env;
  lambda := lambda env;
  dynamoPut := fun _ _ _ => Throw storeError;
  dynamoQuery := fun _ _ _ => Throw storeError;
  dynamoDescribe := fun _ _ => Throw storeError;
  sqsAttributes := fun _ _ => Throw storeError
|}.

(** The same surroundings without a dead-letter queue. *)
Definition envNoDLQ : Env := {|
  LocalTZA := LocalTZA env;
  legacyParse := legacyParse env;
  randomUUID := randomUUID env;
  latency := latency env;
  env_TABLE_NAME := env_TABLE_NAME env;
  env_DLQ_URL := None;
  env_PROCESSOR_LAMBDA_NAME := env_PROCESSOR_LAMBDA_NAME env;
  cloudwatch := cloudwatch env;
  lambda := lambda env;
  dynamoPut := dynamoPut env;
  dynamoQuery := dynamoQuery env;
  dynamoDescribe := dynamoDescribe env;
  sqsAttributes := sqsAttributes env
|}.

(** 2024-01-15T10:30:00.000Z *)
Definition world : World :=
  {| time := 1705314600000; awaits := 0; draws := 0; trace := [] |}.

Definition voltage : JsValue :=
  JObj [("voltage", JNum (S754_finite false 8461841487364096 (-45)))].

Definition event (timestamp : string) : list (string * JsValue) :=
  [("chargerId", JStr "CHG001"); ("timestamp", JStr timestamp); ("data", voltage)].

Definition validated : ValidatedEvent :=
  {| ve_chargerId := "CHG001"; ve_timestamp := Some 1705314600000; ve_data := voltage |}.

End Sample.

(* ===================================================================== *)
(** ** src/utils/logger.ts *)
(* ===================================================================== *)

Module Logger.
Import JS Runtime.

(** Defines property [k] of an object under construction: a key already
    there takes the new value.  An object is read through [prop]; the
    order in which [JSON.stringify] writes the keys is not modelled. *)
Fixpoint setProp (k : string) (v : JsValue) (fields : list (string * JsValue))
  : list (string * JsValue) :=
  match fields with
  | [] => [(k, v)]
  | (k', v') :: rest =>
      if String.eqb k' k then (k', v) :: rest else (k', v') :: setProp k v rest
  end.

(** [{ ...target, ...source }]: the properties of [source], in order. *)
Definition spread (source target : list (string * JsValue))
  : list (string * JsValue) :=
  fold_left (fun acc kv => setProp (fst kv) (snd kv) acc) source target.

(** The object [log] gives to [JSON.stringify], [now] being the clock.
    [data && { data }] is [data] itself when [data] is falsy, and a
    falsy value has no property to spread. *)
Definition logEntry (context : list (string * JsValue)) (now : Z)
  (level message : string) (data : JsValue) : list (string * JsValue) :=
  let logEntry :=
    spread context
      [("timestamp", JStr (ESDate.isoString now));
       ("level", JStr level);
       ("message", JStr message)] in
  if truthy data then spread [("data", data)] logEntry else logEntry.

Definition info (context : list (string * JsValue)) (now : Z) (message : string)
  (data : JsValue) := logEntry context now "INFO" message data.

Definition error (context : list (string * JsValue)) (now : Z) (message : string)
  (data : JsValue) := logEntry context now "ERROR" message data.

Definition warn (context : list (string * JsValue)) (now : Z) (message : string)
  (data : JsValue) := logEntry context now "WARN" message data.

Definition debug (context : list (string * JsValue)) (now : Z) (message : string)
  (data : JsValue) := logEntry context now "DEBUG" message data.

(** The value of the last binding of [k] in a list of bindings. *)
Definition lastBinding (k : string) (fields : list (string * JsValue))
  : option JsValue := assoc k (rev fields).

End Logger.

(* ===================================================================== *)
(** ** Traces and surroundings of the handlers *)
(* ===================================================================== *)

Module Traces.
Import JS Telemetry Runtime.

(** The surroundings [env] with another metrics service. *)
Definition withCloudwatch (cw : nat -> list MetricDatum -> Completion unit) (env : Env)
  : Env := {|
  LocalTZA := LocalTZA env;
  legacyParse := legacyParse env;
  randomUUID := randomUUID env;
  latency := latency env;
  env_TABLE_NAME := env_TABLE_NAME env;
  env_DLQ_URL := env_DLQ_URL env;
  env_PROCESSOR_LAMBDA_NAME := env_PROCESSOR_LAMBDA_NAME env;
  cloudwatch := cw;
  lambda := lambda env;
  dynamoPut := dynamoPut env;
  dynamoQuery := dynamoQuery env;
  dynamoDescribe := dynamoDescribe env;
  sqsAttributes := sqsAttributes env
|}.

(** The surroundings [env] with another host for [Date.parse]. *)
Definition withHost (tza : Z -> Z) (legacy : string -> option Z) (env : Env) : Env := {|
  LocalTZA := tza;
  legacyParse := legacy;
  randomUUID := randomUUID env;
  latency := latency env;
  env_TABLE_NAME := env_TABLE_NAME env;
  env_DLQ_URL := env_DLQ_URL env;
  env_PROCESSOR_LAMBDA_NAME := env_PROCESSOR_LAMBDA_NAME env;
  cloudwatch := cloudwatch env;
  lambda := lambda env;
  dynamoPut := dynamoPut env;
  dynamoQuery := dynamoQuery env;
  dynamoDescribe := dynamoDescribe env;
  sqsAttributes := sqsAttributes env
|}.

(** The console line a failed metrics call leaves. *)
Definition swallowed (answer : Completion unit) (label : string) : list Effect :=
  match answer with
  | Normal _ => []
  | Throw _ => [Console "error" label]
  end.

Definition validatedDatum (now : Z) : MetricDatum :=
  {| MetricName := "EventsValidated"; Value := 1; Unit := "Count"; Timestamp := now;
     Dimensions := None |}.

Definition processedData (now duration : Z) (status : string) : list MetricDatum :=
  [ {| MetricName := "ProcessingDuration"; Value := duration; Unit := "Milliseconds";
       Timestamp := now; Dimensions := None |};
    {| MetricName := "EventsProcessed"; Value := 1; Unit := "Count"; Timestamp := now;
       Dimensions := Some [("Status", status)] |} ].

(** The record [toStoredEvent] builds for a validated event of timestamp
    [t] when the clock shows [now] and the identifier drawn is [eventId]. *)
Definition storedOf (v : ValidatedEvent) (t now : Z) (eventId : string) : StoredEvent :=
  {| se_eventId := eventId;
     se_chargerId := ve_chargerId v;
     se_timestamp := ESDate.isoString t;
     se_data := ve_data v;
     se_metadata := {| sm_receivedAt := ESDate.isoString now;
                       sm_processedAt := ESDate.isoString now |};
     se_ttl := now / 1000 + 90 * 24 * 60 * 60 |}.

(** The JavaScript object a [StoredEvent] record stands for, the Number
    of [ttl] being the binary64 value of the integer. *)
Definition toItem (se : StoredEvent) : JsValue :=
  JObj [("eventId", JStr (se_eventId se));
        ("chargerId", JStr (se_chargerId se));
        ("timestamp", JStr (se_timestamp se));
        ("data", se_data se);
        ("metadata", JObj [("receivedAt", JStr (sm_receivedAt (se_metadata se)));
                           ("processedAt", JStr (sm_processedAt (se_metadata se)))]);
        ("ttl", JNum (binary_normalize 53 1024 (se_ttl se) 0 false))].

(** How many [QueryDuration] measurements a trace holds. *)
Definition countQueryDuration (tr : list Effect) : nat :=
  List.length (filter Checks.isQueryDuration tr).

Definition isQuery (e : Effect) : bool :=
  match e with
  | Sent (Query _ _) => true
  | _ => false
  end.

Definition isGetQueueAttributes (e : Effect) : bool :=
  match e with
  | Sent (GetQueueAttributes _) => true
  | _ => false
  end.

(** The surroundings [env] with a table that gives one answer to every
    query. *)
Definition withQueryAnswer (answer : Completion (option (list JsValue))) (env : Env)
  : Env := {|
  LocalTZA := LocalTZA env;
  legacyParse := legacyParse env;
  randomUUID := randomUUID env;
  latency := latency env;
  env_TABLE_NAME := env_TABLE_NAME env;
  env_DLQ_URL := env_DLQ_URL env;
  env_PROCESSOR_LAMBDA_NAME := env_PROCESSOR_LAMBDA_NAME env;
  cloudwatch := cloudwatch env;
  lambda := lambda env;
  dynamoPut := dynamoPut env;
  dynamoQuery := fun _ _ _ => answer;
  dynamoDescribe := dynamoDescribe env;
  sqsAttributes := sqsAttributes env
|}.

(** The surroundings [env] with a queue service that gives one answer. *)
Definition withQueueAnswer (answer : Completion (option string)) (env : Env) : Env := {|
  LocalTZA := LocalTZA env;
  legacyParse := legacyParse env;
  randomUUID := randomUUID env;
  latency := latency env;
  env_TABLE_NAME := env_TABLE_NAME env;
  env_DLQ_URL := env_DLQ_URL env;
  env_PROCESSOR_LAMBDA_NAME := env_PROCESSOR_LAMBDA_NAME env;
  cloudwatch := cloudwatch env;
  lambda := lambda env;
  dynamoPut := dynamoPut env;
  dynamoQuery := dynamoQuery env;
  dynamoDescribe := dynamoDescribe env;
  sqsAttributes := fun _ _ => answer
|}.

(** No decimal digit at the head of [s]. *)
Definition noDigitAhead (s : string) : bool :=
  match s with
  | String c _ => match ESDate.digitVal c with Some _ => false | None => true end
  | EmptyString => true
  end.

(** The three properties [log] writes itself. *)
Definition ownFields (now : Z) (level message : string) : list (string * JsValue) :=
  [("timestamp", JStr (ESDate.isoString now));
   ("level", JStr level);
   ("message", JStr message)].

(** A Date holds NaN or a time value in range. *)
Definition validDate (d : ESDate.Date) : bool :=
  match d with
  | Some t => ESDate.inTimeRange t
  | None => true
  end.

(** The characters of a string. *)
Fixpoint chars (s : string) : list ascii :=
  match s with
  | EmptyString => []
  | String c rest => c :: chars rest
  end.

End Traces.

(* ===================================================================== *)
(** * Properties *)
(* ===================================================================== *)

Import JS ESDate Telemetry Runtime Validation.

(** ** Calendar arithmetic *)

Lemma DayFromYear_succ y : DayFromYear (y + 1) = DayFromYear y + DaysInYear y.
Proof.
  unfold DayFromYear, DaysInYear, isLeapYear.
  destruct (y mod 4 =? 0) eqn:E4; destruct (y mod 100 =? 0) eqn:E100;
    destruct (y mod 400 =? 0) eqn:E400; cbn [andb orb negb];
    rewrite ?Z.eqb_eq, ?Z.eqb_neq in *;
    Z.div_mod_to_equations; lia.
Qed.

Lemma YearFromDay_spec d :
  DayFromYear (YearFromDay d) <= d < DayFromYear (YearFromDay d + 1).
Proof.
  unfold YearFromDay.
  set (y := 1970 + d * 400 / 146097).
  assert (Hy : 146097 * (y - 1970) <= d * 400 < 146097 * (y - 1970) + 146097).
  { subst y. Z.div_mod_to_equations. lia. }
  clearbody y.
  destruct (d <? DayFromYear y) eqn:E1; [|destruct (DayFromYear (y + 1) <=? d) eqn:E2];
    rewrite ?Z.ltb_lt, ?Z.ltb_ge, ?Z.leb_le, ?Z.leb_gt in *.
  - replace (y - 1 + 1) with y by lia. split; [|lia].
    unfold DayFromYear in *. Z.div_mod_to_equations. lia.
  - split; [lia|]. unfold DayFromYear in *. Z.div_mod_to_equations. lia.
  - lia.
Qed.

Lemma DayWithinYear_range t :
  0 <= DayWithinYear t < 365 + InLeapYear t.
Proof.
  unfold DayWithinYear, InLeapYear, YearFromTime.
  pose proof (YearFromDay_spec (Day t)) as H.
  rewrite DayFromYear_succ in H. unfold DaysInYear in H.
  destruct (isLeapYear (YearFromDay (Day t))); lia.
Qed.

Lemma InLeapYear_cases t : InLeapYear t = 0 \/ InLeapYear t = 1.
Proof. unfold InLeapYear. destruct (isLeapYear _); auto. Qed.

Ltac split_ifs :=
  repeat match goal with
    | |- context [if ?b then _ else _] =>
        let E := fresh "E" in destruct b eqn:E
    end;
  rewrite ?Z.ltb_lt, ?Z.ltb_ge, ?Z.leb_le, ?Z.leb_gt, ?Z.eqb_eq, ?Z.eqb_neq in *.

Ltac eval_tables :=
  cbv zeta;
  repeat match goal with
    | |- context [daysBeforeMonth ?l ?k] =>
        let k' := eval vm_compute in k in
        let v := eval cbv [daysBeforeMonth Z.eqb Pos.eqb] in (daysBeforeMonth l k') in
        change (daysBeforeMonth l k) with v
    | |- context [?a =? ?b] =>
        let v := eval vm_compute in (a =? b) in
        change (a =? b) with v
    end;
  cbv iota.

Lemma month_table leap dwy :
  (leap = 0 \/ leap = 1) -> 0 <= dwy < 365 + leap ->
  let m := monthOfDay leap dwy in
  0 <= m <= 11 /\
  daysBeforeMonth leap m <= dwy /\
  dwy < (if m =? 11 then 365 + leap else daysBeforeMonth leap (m + 1)).
Proof.
  intros Hl Hd. unfold monthOfDay.
  split_ifs; eval_tables; lia.
Qed.

Lemma DateFromTime_range t :
  0 <= MonthFromTime t <= 11 /\
  1 <= DateFromTime t <= daysInMonth (YearFromTime t) (MonthFromTime t).
Proof.
  pose proof (month_table (InLeapYear t) (DayWithinYear t)
                (InLeapYear_cases t) (DayWithinYear_range t)) as H.
  cbv zeta in H. unfold DateFromTime, daysInMonth, MonthFromTime in *.
  fold (InLeapYear t). lia.
Qed.

Lemma MakeDay_inverse t :
  MakeDay (YearFromTime t) (MonthFromTime t) (DateFromTime t) = Day t.
Proof.
  unfold MakeDay, DateFromTime, DayWithinYear. fold (InLeapYear t). lia.
Qed.

Lemma MakeTime_inverse t :
  MakeTime (HourFromTime t) (MinFromTime t) (SecFromTime t) (msFromTime t)
  = TimeWithinDay t.
Proof.
  unfold MakeTime, HourFromTime, MinFromTime, SecFromTime, msFromTime, TimeWithinDay,
    msPerHour, msPerMinute, msPerSecond, msPerDay.
  Z.div_mod_to_equations. lia.
Qed.

Lemma MakeDate_inverse t : MakeDate (Day t) (TimeWithinDay t) = t.
Proof.
  unfold MakeDate, Day, TimeWithinDay, msPerDay. Z.div_mod_to_equations. lia.
Qed.

Lemma time_fields_range t :
  0 <= HourFromTime t <= 23 /\ 0 <= MinFromTime t <= 59 /\
  0 <= SecFromTime t <= 59 /\ 0 <= msFromTime t <= 999.
Proof.
  unfold HourFromTime, MinFromTime, SecFromTime, msFromTime,
    msPerHour, msPerMinute, msPerSecond.
  Z.div_mod_to_equations. lia.
Qed.

Lemma YearFromTime_range t :
  inTimeRange t = true -> -271821 <= YearFromTime t <= 275760.
Proof.
  unfold inTimeRange, maxTime. intros H.
  apply andb_true_iff in H. destruct H as [H1 H2].
  apply Z.leb_le in H1, H2.
  unfold YearFromTime.
  pose proof (YearFromDay_spec (Day t)) as Hs.
  assert (Hd : -100000000 <= Day t <= 100000000).
  { unfold Day, msPerDay. Z.div_mod_to_equations. lia. }
  set (y := YearFromDay (Day t)) in *. clearbody y.
  unfold DayFromYear in Hs. Z.div_mod_to_equations. lia.
Qed.


Lemma digitVal_digitChar d : 0 <= d <= 9 -> digitVal (digitChar d) = Some d.
Proof.
  intros H.
  assert (C : d = 0 \/ d = 1 \/ d = 2 \/ d = 3 \/ d = 4 \/ d = 5 \/ d = 6
              \/ d = 7 \/ d = 8 \/ d = 9) by lia.
  repeat destruct C as [C | C]; subst d; reflexivity.
Qed.

Lemma digitChar_not_sign d c :
  0 <= d <= 9 -> c = "+"%char \/ c = "-"%char \/ c = ":"%char \/ c = "."%char ->
  Ascii.eqb (digitChar d) c = false.
Proof.
  intros H Hc.
  assert (C : d = 0 \/ d = 1 \/ d = 2 \/ d = 3 \/ d = 4 \/ d = 5 \/ d = 6
              \/ d = 7 \/ d = 8 \/ d = 9) by lia.
  repeat destruct C as [C | C]; subst d;
    repeat destruct Hc as [Hc | Hc]; subst c; reflexivity.
Qed.

Lemma readDigits_fmtDigits w : forall acc v rest,
  0 <= v ->
  readDigits w acc (fmtDigits w v ++ rest)
  = Some (acc * 10 ^ Z.of_nat w + v mod 10 ^ Z.of_nat w, rest).
Proof.
  induction w as [|w IH]; intros acc v rest Hv.
  - cbn. rewrite Z.mod_1_r. f_equal. f_equal. lia.
  - cbn [fmtDigits readDigits String.append].
    assert (Hp : 0 < 10 ^ Z.of_nat w) by (apply Z.pow_pos_nonneg; lia).
    rewrite digitVal_digitChar
      by (pose proof (Z.mod_pos_bound (v / 10 ^ Z.of_nat w) 10); lia).
    rewrite IH by assumption. f_equal. f_equal.
    rewrite Nat2Z.inj_succ, Z.pow_succ_r by lia.
    rewrite (Z.mul_comm 10 (10 ^ Z.of_nat w)).
    rewrite Z.rem_mul_r by lia. lia.
Qed.

Lemma readDigits_field w acc v rest :
  0 <= v < 10 ^ Z.of_nat w ->
  readDigits w acc (fmtDigits w v ++ rest) = Some (acc * 10 ^ Z.of_nat w + v, rest).
Proof.
  intros H. rewrite readDigits_fmtDigits by lia.
  rewrite Z.mod_small by lia. reflexivity.
Qed.

Lemma startsWith_digits c w v rest :
  c = "+"%char \/ c = "-"%char \/ c = ":"%char \/ c = "."%char ->
  startsWith c (fmtDigits (S w) v ++ rest) = false.
Proof.
  intros Hc. cbn [fmtDigits String.append startsWith].
  apply digitChar_not_sign; [|assumption].
  pose proof (Z.mod_pos_bound (v / 10 ^ Z.of_nat w) 10). lia.
Qed.

Lemma parseYear_fmtYear y rest :
  -999999 <= y <= 999999 ->
  parseYear (fmtYear y ++ rest) = Some (y, rest).
Proof.
  intros Hy. unfold fmtYear, parseYear.
  destruct ((0 <=? y) && (y <=? 9999)) eqn:E.
  - apply andb_true_iff in E. destruct E as [E1 E2]. apply Z.leb_le in E1, E2.
    rewrite !startsWith_digits by auto.
    rewrite readDigits_field by (change (10 ^ Z.of_nat 4) with 10000; lia).
    reflexivity.
  - destruct (y <? 0) eqn:En.
    + apply Z.ltb_lt in En. cbn [String.append startsWith expect].
      change (Ascii.eqb "-" "+") with false. change (Ascii.eqb "-" "-") with true.
      cbv iota.
      rewrite readDigits_field by (change (10 ^ Z.of_nat 6) with 1000000; lia).
      change (0 * 10 ^ Z.of_nat 6) with 0. rewrite Z.add_0_l.
      destruct (- y =? 0) eqn:E0; [apply Z.eqb_eq in E0; lia|].
      rewrite Z.opp_involutive. reflexivity.
    + apply Z.ltb_ge in En. cbn [String.append startsWith expect].
      change (Ascii.eqb "+" "+") with true. cbv iota.
      rewrite readDigits_field by (change (10 ^ Z.of_nat 6) with 1000000; lia).
      reflexivity.
Qed.

Lemma parseDate_fmt y m d rest :
  -999999 <= y <= 999999 -> 0 <= m <= 99 -> 0 <= d <= 99 ->
  parseDate (fmtYear y ++ String "-" (fmtDigits 2 m ++ String "-" (fmtDigits 2 d ++ rest)))
  = Some (y, m, d, rest).
Proof.
  intros Hy Hm Hd. unfold parseDate.
  rewrite parseYear_fmtYear by assumption.
  cbn [String.append startsWith expect].
  change (Ascii.eqb "-" "-") with true. cbv iota.
  rewrite readDigits_field by (change (10 ^ Z.of_nat 2) with 100; lia).
  cbn [String.append startsWith expect].
  change (Ascii.eqb "-" "-") with true. cbv iota.
  rewrite readDigits_field by (change (10 ^ Z.of_nat 2) with 100; lia).
  reflexivity.
Qed.

Lemma parseTime_fmt h mi sec ms rest :
  0 <= h <= 99 -> 0 <= mi <= 99 -> 0 <= sec <= 99 -> 0 <= ms <= 999 ->
  parseTime (fmtDigits 2 h ++ String ":" (fmtDigits 2 mi ++ String ":" (fmtDigits 2 sec
             ++ String "." (fmtDigits 3 ms ++ rest))))
  = Some (h, mi, sec, ms, rest).
Proof.
  intros Hh Hmi Hs Hms. unfold parseTime.
  rewrite readDigits_field by (change (10 ^ Z.of_nat 2) with 100; lia).
  cbn [String.append startsWith expect].
  change (Ascii.eqb ":" ":") with true. cbv iota.
  rewrite readDigits_field by (change (10 ^ Z.of_nat 2) with 100; lia).
  cbn [String.append startsWith expect].
  change (Ascii.eqb ":" ":") with true. cbv iota.
  rewrite readDigits_field by (change (10 ^ Z.of_nat 2) with 100; lia).
  cbn [String.append startsWith expect].
  change (Ascii.eqb "." ".") with true. cbv iota.
  rewrite readDigits_field by (change (10 ^ Z.of_nat 3) with 1000; lia).
  reflexivity.
Qed.

(** The instant written by [toISOString] is an instance of the format,
    and reads back as itself. *)
Lemma parseISO_isoString (LocalTZA : Z -> Z) t :
  inTimeRange t = true -> parseISO LocalTZA (isoString t) = Some (Some t).
Proof.
  intros Ht.
  pose proof (YearFromTime_range t Ht) as Hy.
  pose proof (DateFromTime_range t) as [Hm Hd].
  pose proof (time_fields_range t) as (Hh & Hmi & Hs & Hms).
  assert (Hdm : daysInMonth (YearFromTime t) (MonthFromTime t) <= 31).
  { unfold daysInMonth. destruct (isLeapYear _).
    all: assert (C : MonthFromTime t = 0 \/ MonthFromTime t = 1 \/ MonthFromTime t = 2
            \/ MonthFromTime t = 3 \/ MonthFromTime t = 4 \/ MonthFromTime t = 5
            \/ MonthFromTime t = 6 \/ MonthFromTime t = 7 \/ MonthFromTime t = 8
            \/ MonthFromTime t = 9 \/ MonthFromTime t = 10 \/ MonthFromTime t = 11) by lia.
    all: repeat destruct C as [C | C]; rewrite C; vm_compute; discriminate. }
  unfold parseISO, isoString. cbn [String.append].
  rewrite parseDate_fmt by lia.
  unfold legalDate.
  replace (MonthFromTime t + 1 - 1) with (MonthFromTime t) by lia.
  replace ((1 <=? MonthFromTime t + 1) && (MonthFromTime t + 1 <=? 12)
           && (1 <=? DateFromTime t)
           && (DateFromTime t <=? daysInMonth (YearFromTime t) (MonthFromTime t)))
    with true
    by (symmetry; rewrite !andb_true_iff, !Z.leb_le; lia).
  cbn [negb String.append]. change (Ascii.eqb "T" "T") with true. cbv iota.
  rewrite parseTime_fmt by lia.
  cbn [parseZone]. change (Ascii.eqb "Z" "Z") with true. cbv iota.
  unfold legalTime.
  replace ((HourFromTime t <=? 24) && (MinFromTime t <=? 59) && (SecFromTime t <=? 59)
           && ((HourFromTime t <? 24)
               || (MinFromTime t =? 0) && (SecFromTime t =? 0) && (msFromTime t =? 0)))
    with true.
  2:{ symmetry. rewrite !andb_true_iff, orb_true_iff, !Z.leb_le, Z.ltb_lt. lia. }
  cbn [negb utcOf].
  rewrite MakeDay_inverse, MakeTime_inverse, MakeDate_inverse.
  unfold TimeClip. rewrite Ht. reflexivity.
Qed.

(** ** The validator *)

Lemma isoString_nonempty t : isoString t <> "".
Proof.
  unfold isoString. destruct (fmtYear (YearFromTime t)); discriminate.
Qed.

Lemma TimeClip_inRange t t' : TimeClip t = Some t' -> inTimeRange t' = true.
Proof.
  unfold TimeClip. destruct (inTimeRange t) eqn:E; [|discriminate].
  intros H. injection H as <-. exact E.
Qed.

(** A Date built from a string holds NaN or a time value in range. *)
Lemma newDate_inRange env s t : newDate env s = Some t -> inTimeRange t = true.
Proof.
  unfold newDate, Date_parse, parseISO.
  destruct (parseDate s) as [[[[y m] d] s1]|]; cbv beta iota.
  2:{ destruct (legacyParse env s); [apply TimeClip_inRange | discriminate]. }
  destruct (negb (legalDate y m d)).
  { destruct (legacyParse env s); [apply TimeClip_inRange | discriminate]. }
  destruct s1 as [|c s2].
  { apply TimeClip_inRange. }
  destruct (Ascii.eqb c "T").
  2:{ destruct (legacyParse env s); [apply TimeClip_inRange | discriminate]. }
  destruct (parseTime s2) as [[[[[h mi] sec] ms] s3]|]; cbv beta iota.
  2:{ destruct (legacyParse env s); [apply TimeClip_inRange | discriminate]. }
  destruct (parseZone s3) as [zone|]; cbv beta iota.
  2:{ destruct (legacyParse env s); [apply TimeClip_inRange | discriminate]. }
  destruct (negb (legalTime h mi sec ms)).
  { destruct (legacyParse env s); [apply TimeClip_inRange | discriminate]. }
  apply TimeClip_inRange.
Qed.

(** A canonical string is read by the format itself, never by the
    implementation's other formats. *)
Lemma newDate_isoString env t :
  inTimeRange t = true -> newDate env (isoString t) = Some t.
Proof.
  intros H. unfold newDate, Date_parse.
  rewrite parseISO_isoString by assumption. reflexivity.
Qed.

Lemma isValidChargerId_matches v : isValidChargerId v = Checks.matchesPattern v.
Proof.
  unfold isValidChargerId, Checks.matchesPattern.
  destruct v as [| |b|n|s|l|f]; cbn; try reflexivity.
  - destruct b; reflexivity.
  - destruct n; reflexivity.
  - destruct s; reflexivity.
Qed.

Lemma isValidTimestamp_string env s :
  isValidTimestamp env (JStr s)
  = negb (String.eqb s "")
    && match newDate env s with
       | Some t => String.eqb (isoString t) s
       | None => false
       end.
Proof.
  unfold isValidTimestamp, roundTrips, getTime, isNaN, toISOString. cbn [truthy isString].
  destruct (String.eqb s ""); cbn [negb orb andb]; [reflexivity|].
  destruct (newDate env s); reflexivity.
Qed.

Lemma isValidTimestamp_canonical env v : isValidTimestamp env v = Checks.canonical env v.
Proof.
  destruct v as [| |b|n|s|l|f]; try reflexivity.
  - unfold isValidTimestamp. cbn. destruct b; reflexivity.
  - unfold isValidTimestamp. cbn. destruct n; reflexivity.
  - rewrite isValidTimestamp_string. unfold Checks.canonical.
    destruct (String.eqb s "") eqn:E; cbn [negb andb]; [|reflexivity].
    apply String.eqb_eq in E. subst s.
    destruct (newDate env "") as [t|]; [|reflexivity].
    symmetry. apply String.eqb_neq. apply isoString_nonempty.
Qed.

Lemma isValidChargerId_string v :
  isValidChargerId v = true -> exists s, v = JStr s /\ pattern_test s = true.
Proof.
  rewrite isValidChargerId_matches. destruct v; cbn; try discriminate. eauto.
Qed.

Lemma isValidTimestamp_parsed env v :
  isValidTimestamp env v = true ->
  exists s t, v = JStr s /\ newDate env s = Some t /\ isoString t = s.
Proof.
  rewrite isValidTimestamp_canonical. destruct v; cbn; try discriminate.
  destruct (newDate env s) as [t|] eqn:E; [|discriminate].
  intros H. apply String.eqb_eq in H. eauto.
Qed.

Lemma isFutureTimestamp_run d env w :
  isFutureTimestamp d env w = (Normal (gtTime d (time w + clockSkewMs)), w).
Proof. reflexivity. Qed.

(** What [validateEvent] returns when the first four checks pass. *)
Lemma validateEvent_parsed event env w chargerId s t :
  prop event "chargerId" = JStr chargerId -> pattern_test chargerId = true ->
  prop event "timestamp" = JStr s -> newDate env s = Some t -> isoString t = s ->
  Validator.validateEvent event env w
  = (Normal
       (if time w + clockSkewMs <? t then Validator.rejected "FutureTimestamp"
        else {| Validator.isValid := true;
                Validator.rejectionReason := None;
                Validator.validatedEvent :=
                  Some {| ve_chargerId := chargerId;
                          ve_timestamp := Some t;
                          ve_data := prop event "data" |} |}),
     w).
Proof.
  intros Hc Hp Hs Hd Hi.
  assert (Hne : String.eqb s "" = false).
  { apply String.eqb_neq. rewrite <- Hi. apply isoString_nonempty. }
  assert (Hne' : String.eqb chargerId "" = false).
  { destruct chargerId; [discriminate | reflexivity]. }
  unfold Validator.validateEvent. rewrite Hc, Hs.
  cbn [truthy]. rewrite Hne, Hne'. cbn [negb].
  rewrite isValidChargerId_matches. cbn [Checks.matchesPattern]. rewrite Hp.
  cbn [negb]. unfold bind, ask.
  rewrite isValidTimestamp_string, Hne, Hd, Hi, String.eqb_refl. cbn [negb andb].
  rewrite isFutureTimestamp_run. cbn [gtTime getTime].
  destruct (time w + clockSkewMs <? t); reflexivity.
Qed.


Lemma validateEvent_missing_chargerId event env w :
  truthy (prop event "chargerId") = false ->
  Validator.validateEvent event env w
  = (Normal (Validator.rejected "MissingChargerId"), w).
Proof. intros H. unfold Validator.validateEvent. rewrite H. reflexivity. Qed.

Lemma validateEvent_missing_timestamp event env w :
  truthy (prop event "chargerId") = true ->
  truthy (prop event "timestamp") = false ->
  Validator.validateEvent event env w
  = (Normal (Validator.rejected "MissingTimestamp"), w).
Proof. intros H1 H2. unfold Validator.validateEvent. rewrite H1, H2. reflexivity. Qed.

Lemma validateEvent_bad_chargerId event env w :
  truthy (prop event "chargerId") = true ->
  truthy (prop event "timestamp") = true ->
  isValidChargerId (prop event "chargerId") = false ->
  Validator.validateEvent event env w
  = (Normal (Validator.rejected "InvalidChargerIdFormat"), w).
Proof.
  intros H1 H2 H3. unfold Validator.validateEvent. rewrite H1, H2, H3. reflexivity.
Qed.

Lemma validateEvent_bad_timestamp event env w :
  truthy (prop event "chargerId") = true ->
  truthy (prop event "timestamp") = true ->
  isValidChargerId (prop event "chargerId") = true ->
  isValidTimestamp env (prop event "timestamp") = false ->
  Validator.validateEvent event env w
  = (Normal (Validator.rejected "InvalidTimestampFormat"), w).
Proof.
  intros H1 H2 H3 H4. unfold Validator.validateEvent, bind, ask.
  rewrite H1, H2, H3. cbn [negb]. rewrite H4. reflexivity.
Qed.

(** Of the checks an event violates, [validateEvent] reports the first. *)
Lemma validateEvent_first_violation env w event :
  match Checks.violated env (time w) event with
  | reason :: _ =>
      Validator.validateEvent event env w = (Normal (Validator.rejected reason), w)
  | [] =>
      exists ve,
        Validator.validateEvent event env w
        = (Normal {| Validator.isValid := true;
                     Validator.rejectionReason := None;
                     Validator.validatedEvent := Some ve |}, w)
  end.
Proof.
  unfold Checks.violated, Checks.present.
  destruct (truthy (prop event "chargerId")) eqn:H1; cbn [app].
  2:{ apply validateEvent_missing_chargerId; assumption. }
  destruct (truthy (prop event "timestamp")) eqn:H2; cbn [app].
  2:{ apply validateEvent_missing_timestamp; assumption. }
  rewrite <- isValidChargerId_matches, <- isValidTimestamp_canonical.
  destruct (isValidChargerId (prop event "chargerId")) eqn:H3; cbn [app].
  2:{ apply validateEvent_bad_chargerId; assumption. }
  destruct (isValidTimestamp env (prop event "timestamp")) eqn:H4; cbn [app].
  2:{ apply validateEvent_bad_timestamp; assumption. }
  destruct (isValidChargerId_string _ H3) as (c & Hc & Hp).
  destruct (isValidTimestamp_parsed _ _ H4) as (s & t & Hs & Hd & Hi).
  rewrite (validateEvent_parsed event env w c s t Hc Hp Hs Hd Hi).
  rewrite Hs. cbn [Checks.notInFuture]. rewrite Hd.
  change (5 * 60 * 1000) with clockSkewMs.
  destruct (t <=? time w + clockSkewMs) eqn:E.
  - apply Z.leb_le in E.
    destruct (time w + clockSkewMs <? t) eqn:E'; [apply Z.ltb_lt in E'; lia|].
    eexists. reflexivity.
  - apply Z.leb_gt in E.
    destruct (time w + clockSkewMs <? t) eqn:E'; [|apply Z.ltb_ge in E'; lia].
    reflexivity.
Qed.

(** An empty event violates four checks and is rejected for the first;
    a bad identifier with a timestamp ten minutes ahead is rejected for
    the identifier. *)
Example violated_all :
  Checks.violated Sample.env (time Sample.world) []
  = ["MissingChargerId"; "MissingTimestamp"; "InvalidChargerIdFormat";
     "InvalidTimestampFormat"]
  /\ Validator.validateEvent [] Sample.env Sample.world
     = (Normal (Validator.rejected "MissingChargerId"), Sample.world).
Proof. split; reflexivity. Qed.

Example violated_format_and_future :
  let event := [("chargerId", JStr "bad id!");
                ("timestamp", JStr "2024-01-15T10:40:00.000Z")] in
  Checks.violated Sample.env (time Sample.world) event
  = ["InvalidChargerIdFormat"; "FutureTimestamp"]
  /\ Validator.validateEvent event Sample.env Sample.world
     = (Normal (Validator.rejected "InvalidChargerIdFormat"), Sample.world).
Proof. split; reflexivity. Qed.


(** C5.  The timestamp-format check accepts a string exactly when the
    string is an instance of the ISO8601 date-time format that denotes an
    instant whose [toISOString] serialization is the string itself,
    character for character.  A string that parses (by the format or by
    any other format the implementation reads) but is not its own
    serialization is rejected with InvalidTimestampFormat once the checks
    that come before have passed. *)
Theorem timestamp_format_is_canonical env :
  (forall s,
      isValidTimestamp env (JStr s) = true <->
      exists t, parseISO (LocalTZA env) s = Some (Some t) /\ isoString t = s)
  /\ (forall event w chargerId s t,
        prop event "chargerId" = JStr chargerId -> pattern_test chargerId = true ->
        prop event "timestamp" = JStr s -> s <> "" ->
        newDate env s = Some t -> isoString t <> s ->
        Validator.validateEvent event env w
        = (Normal (Validator.rejected "InvalidTimestampFormat"), w)).
Proof.
  split.
  - intros s. split.
    + intros H. destruct (isValidTimestamp_parsed _ _ H) as (s' & t & Hs & Hd & Hi).
      injection Hs as <-. exists t. split; [|exact Hi].
      rewrite <- Hi. apply parseISO_isoString. exact (newDate_inRange _ _ _ Hd).
    + intros (t & Hp & Hi). rewrite isValidTimestamp_string.
      unfold newDate, Date_parse. rewrite Hp, Hi, String.eqb_refl.
      rewrite andb_true_r. apply negb_true_iff, String.eqb_neq.
      rewrite <- Hi. apply isoString_nonempty.
  - intros event w chargerId s t Hc Hp Hs Hne Hd Hi.
    apply validateEvent_bad_timestamp.
    + rewrite Hc. destruct chargerId; [discriminate | reflexivity].
    + rewrite Hs. cbn. apply negb_true_iff, String.eqb_neq. exact Hne.
    + rewrite Hc, isValidChargerId_matches. exact Hp.
    + rewrite Hs, isValidTimestamp_string, Hd.
      apply andb_false_iff. right. apply String.eqb_neq. exact Hi.
Qed.

(** The second and the milliseconds may not be left out, and the offset
    must be Z. *)
Lemma timestamp_format_is_canonical_witness :
  isValidTimestamp Sample.env (JStr "2024-01-15T10:30:00.000Z") = true
  /\ Validator.validateEvent (Sample.event "2024-01-15T10:30:00Z") Sample.env Sample.world
     = (Normal (Validator.rejected "InvalidTimestampFormat"), Sample.world)
  /\ Validator.validateEvent (Sample.event "2024-01-15T11:30:00.000+01:00")
       Sample.env Sample.world
     = (Normal (Validator.rejected "InvalidTimestampFormat"), Sample.world).
Proof.
  split; [|split].
  - apply (proj1 (timestamp_format_is_canonical Sample.env)).
    exists 1705314600000. split; reflexivity.
  - apply (proj2 (timestamp_format_is_canonical Sample.env)
             (Sample.event "2024-01-15T10:30:00Z") Sample.world "CHG001"
             "2024-01-15T10:30:00Z" 1705314600000);
      try reflexivity; vm_compute; discriminate.
  - apply (proj2 (timestamp_format_is_canonical Sample.env)
             (Sample.event "2024-01-15T11:30:00.000+01:00") Sample.world "CHG001"
             "2024-01-15T11:30:00.000+01:00" 1705314600000);
      try reflexivity; vm_compute; discriminate.
Defined.

(** C6.  [isFutureTimestamp] holds of a parsed timestamp [t] exactly when
    [t] is not at most now + 5 minutes, in integer milliseconds; the
    validator accepts an event whose first four checks pass when
    [t <= now + 5 * 60 * 1000], the bound included, and rejects it with
    FutureTimestamp when [t] is greater. *)
Theorem future_check_five_minutes env w t :
  isFutureTimestamp (Some t) env w = (Normal (negb (t <=? time w + 5 * 60 * 1000)), w)
  /\ forall event chargerId s,
       prop event "chargerId" = JStr chargerId -> pattern_test chargerId = true ->
       prop event "timestamp" = JStr s -> newDate env s = Some t -> isoString t = s ->
       Validator.validateEvent event env w
       = (Normal
            (if t <=? time w + 5 * 60 * 1000 then
               {| Validator.isValid := true;
                  Validator.rejectionReason := None;
                  Validator.validatedEvent :=
                    Some {| ve_chargerId := chargerId;
                            ve_timestamp := Some t;
                            ve_data := prop event "data" |} |}
             else Validator.rejected "FutureTimestamp"),
          w).
Proof.
  change (5 * 60 * 1000) with clockSkewMs.
  assert (E : (time w + clockSkewMs <? t) = negb (t <=? time w + clockSkewMs)).
  { destruct (t <=? time w + clockSkewMs) eqn:E1;
      [apply Z.leb_le in E1; apply Z.ltb_ge; lia
      |apply Z.leb_gt in E1; apply Z.ltb_lt; lia]. }
  split.
  - rewrite isFutureTimestamp_run. cbn [gtTime getTime]. rewrite E. reflexivity.
  - intros event chargerId s Hc Hp Hs Hd Hi.
    rewrite (validateEvent_parsed event env w chargerId s t Hc Hp Hs Hd Hi), E.
    destruct (t <=? time w + clockSkewMs); reflexivity.
Qed.

(** At 10:30:00.000 a timestamp of 10:35:00.000 is accepted and one of
    10:35:00.001 is rejected. *)
Lemma future_check_five_minutes_witness :
  Validator.validateEvent (Sample.event "2024-01-15T10:35:00.000Z") Sample.env Sample.world
  = (Normal {| Validator.isValid := true;
               Validator.rejectionReason := None;
               Validator.validatedEvent :=
                 Some {| ve_chargerId := "CHG001";
                         ve_timestamp := Some 1705314900000;
                         ve_data := Sample.voltage |} |},
     Sample.world)
  /\ Validator.validateEvent (Sample.event "2024-01-15T10:35:00.001Z")
       Sample.env Sample.world
     = (Normal (Validator.rejected "FutureTimestamp"), Sample.world).
Proof.
  split.
  - rewrite (proj2 (future_check_five_minutes Sample.env Sample.world 1705314900000)
               (Sample.event "2024-01-15T10:35:00.000Z") "CHG001"
               "2024-01-15T10:35:00.000Z"); reflexivity.
  - rewrite (proj2 (future_check_five_minutes Sample.env Sample.world 1705314900001)
               (Sample.event "2024-01-15T10:35:00.001Z") "CHG001"
               "2024-01-15T10:35:00.001Z"); reflexivity.
Defined.



(** ** The processor *)

Lemma enrichEvent_run v env w :
  Processor.enrichEvent v env w
  = (Normal {| pe_eventId := randomUUID env (draws w);
               pe_chargerId := ve_chargerId v;
               pe_timestamp := ve_timestamp v;
               pe_data := ve_data v;
               pe_metadata := {| pm_receivedAt := Some (time w);
                                 pm_processedAt := Some (time w) |} |},
     {| time := time w; awaits := awaits w; draws := S (draws w); trace := trace w |}).
Proof. reflexivity. Qed.

Lemma toStoredEvent_run p t r q env w :
  pe_timestamp p = Some t ->
  pm_receivedAt (pe_metadata p) = Some r ->
  pm_processedAt (pe_metadata p) = Some q ->
  Processor.toStoredEvent p env w
  = (Normal {| se_eventId := pe_eventId p;
               se_chargerId := pe_chargerId p;
               se_timestamp := isoString t;
               se_data := pe_data p;
               se_metadata := {| sm_receivedAt := isoString r;
                                 sm_processedAt := isoString q |};
               se_ttl := time w / 1000 + Processor.TTL_DAYS * 24 * 60 * 60 |},
     w).
Proof.
  intros Ht Hr Hq. unfold Processor.toStoredEvent, bind, lift, ret, Date_now.
  rewrite Ht, Hr, Hq. reflexivity.
Qed.

(** The metric calls swallow what the metrics service throws. *)
Lemma publishMetrics_returns d st env w :
  exists w', Processor.publishMetrics d st env w = (Normal tt, w').
Proof.
  unfold Processor.publishMetrics, bind, try_catch, send, console, Date_now.
  destruct (cloudwatch env (awaits w) _) as [[]|e]; eauto.
Qed.

(** C8.  [enrichEvent] takes the eventId from the identifier generator,
    whatever the event is: the identifier is the generator's next draw,
    and enriching again, the same event or another, takes the draw after
    it.  [receivedAt] and [processedAt] are both the one instant read at
    the start, hence equal. *)
Theorem enrich_fresh_id_single_now env w v v' :
  exists p w' p' w'',
    Processor.enrichEvent v env w = (Normal p, w')
    /\ pe_eventId p = randomUUID env (draws w)
    /\ pm_receivedAt (pe_metadata p) = Some (time w)
    /\ pm_processedAt (pe_metadata p) = Some (time w)
    /\ pm_receivedAt (pe_metadata p) = pm_processedAt (pe_metadata p)
    /\ Processor.enrichEvent v' env w' = (Normal p', w'')
    /\ pe_eventId p' = randomUUID env (S (draws w)).
Proof.
  do 4 eexists. rewrite !enrichEvent_run. cbn. repeat split; reflexivity.
Qed.

(** C7.  For a validated event, whose timestamp is a valid Date, [enrichEvent]
    followed by [toStoredEvent] keeps the chargerId and the payload as
    they are and stores the timestamp as the string that reads back, by
    [new Date], as the very same instant; the [ttl] is the time of the
    conversion in whole seconds plus 90 * 24 * 60 * 60. *)
Theorem enrich_store_round_trip env w v t :
  ve_timestamp v = Some t -> inTimeRange t = true ->
  exists se w',
    bind (Processor.enrichEvent v) Processor.toStoredEvent env w = (Normal se, w')
    /\ se_chargerId se = ve_chargerId v
    /\ se_data se = ve_data v
    /\ se_timestamp se = isoString t
    /\ newDate env (se_timestamp se) = ve_timestamp v
    /\ se_ttl se = time w / 1000 + 90 * 24 * 60 * 60.
Proof.
  intros Ht Hr. do 2 eexists. unfold bind at 1. rewrite enrichEvent_run.
  rewrite (toStoredEvent_run _ t (time w) (time w)) by (cbn; auto).
  cbn. repeat split; try reflexivity.
  rewrite Ht. apply newDate_isoString. exact Hr.
Qed.

(** The event of 2024-01-15T10:30:00.000Z, converted at that very time,
    expires at 1713090600. *)
Lemma enrich_store_round_trip_witness :
  exists se w',
    bind (Processor.enrichEvent Sample.validated) Processor.toStoredEvent
      Sample.env Sample.world = (Normal se, w')
    /\ se_chargerId se = "CHG001"
    /\ se_data se = Sample.voltage
    /\ se_timestamp se = "2024-01-15T10:30:00.000Z"
    /\ newDate Sample.env (se_timestamp se) = Some 1705314600000
    /\ se_ttl se = 1713090600.
Proof.
  exact (enrich_store_round_trip Sample.env Sample.world Sample.validated
           1705314600000 eq_refl eq_refl).
Defined.

(** ** The write path: what reaches the caller *)

(** [validateEvent] reads the clock and nothing else of the world, and
    leaves the world as it is. *)
Lemma validateEvent_world event env w w1 :
  time w1 = time w ->
  Validator.validateEvent event env w1
  = (fst (Validator.validateEvent event env w), w1).
Proof.
  intros Ht. unfold Validator.validateEvent.
  destruct (negb (truthy (prop event "chargerId"))); [reflexivity|].
  destruct (negb (truthy (prop event "timestamp"))); [reflexivity|].
  destruct (negb (isValidChargerId (prop event "chargerId"))); [reflexivity|].
  unfold bind, ask.
  destruct (negb (isValidTimestamp env (prop event "timestamp"))); [reflexivity|].
  destruct (prop event "chargerId"); try reflexivity.
  destruct (prop event "timestamp"); try reflexivity.
  rewrite !isFutureTimestamp_run, Ht.
  destruct (gtTime _ _); reflexivity.
Qed.


(** A rejected event: two console lines and the rejection metric, then a
    normal return. *)
Lemma validator_handler_rejected event reason env w :
  Validator.validateEvent event env w = (Normal (Validator.rejected reason), w) ->
  exists w',
    Validator.handler event env w = (Normal tt, w')
    /\ trace w'
       = (trace w
          ++ [Console "log" "Received event:"; Console "error" "Validation error:";
              Sent (PutMetricData Validator.METRICS_NAMESPACE
                      [Checks.rejectedDatum (time w) reason])]
          ++ match cloudwatch env (awaits w) [Checks.rejectedDatum (time w) reason] with
             | Normal _ => []
             | Throw _ => [Console "error" "Failed to publish validation metrics:"]
             end)%list.
Proof.
  intros H. unfold Validator.handler.
  unfold bind at 1. unfold console at 1. cbv beta iota.
  set (w1 := {| time := time w; awaits := awaits w; draws := draws w;
                trace := trace w ++ [Console "log" "Received event:"] |}).
  assert (H1 : Validator.validateEvent event env w1
               = (Normal (Validator.rejected reason), w1)).
  { rewrite (validateEvent_world event env w w1) by reflexivity. rewrite H. reflexivity. }
  unfold bind at 1. rewrite H1. cbn [Validator.isValid Validator.rejected negb].
  unfold Validator.publishValidationMetrics, bind, try_catch, send, console, ret,
    Date_now.
  cbn [Validator.rejectionReason Validator.rejected time awaits draws trace w1].
  fold (Checks.rejectedDatum (time w) reason).
  destruct (cloudwatch env (awaits w) [Checks.rejectedDatum (time w) reason]) as [[]|e];
    eexists; (split; [reflexivity|]); cbn [trace]; rewrite <- !app_assoc; reflexivity.
Qed.


Lemma publishMetrics_run d st env w :
  Processor.publishMetrics d st env w
  = (Normal tt,
     {| time := time w + Z.of_nat (latency env (awaits w));
        awaits := S (awaits w);
        draws := draws w;
        trace := (trace w
                  ++ [Sent (PutMetricData Processor.METRICS_NAMESPACE
                              (Traces.processedData (time w) d st))])
                 ++ Traces.swallowed
                      (cloudwatch env (awaits w) (Traces.processedData (time w) d st))
                      "Failed to publish metrics:" |}).
Proof.
  unfold Processor.publishMetrics, bind, try_catch, send, console, Date_now.
  fold (Traces.processedData (time w) d st).
  destruct (cloudwatch env (awaits w) (Traces.processedData (time w) d st)) as [[]|e];
    cbn [Traces.swallowed]; [rewrite app_nil_r|]; reflexivity.
Qed.

(** The run of the processor's handler on a valid timestamp. *)
Lemma processor_handler_trace v t env w :
  ve_timestamp v = Some t ->
  let eventId := randomUUID env (draws w) in
  let item := Traces.storedOf v t (time w) eventId in
  let stored := dynamoPut env (awaits w) (Processor.TABLE_NAME env) item in
  let after := time w + Z.of_nat (latency env (awaits w)) in
  let duration := Z.of_nat (latency env (awaits w)) in
  let status := match stored with Normal _ => "success" | Throw _ => "failure" end in
  exists w',
    Processor.handler v env w
    = (match stored with
       | Normal _ =>
           Normal {| Processor.statusCode := 200;
                     Processor.body_message := "Event processed successfully";
                     Processor.body_eventId := eventId |}
       | Throw e => Throw e
       end, w')
    /\ trace w'
       = (trace w
          ++ [Console "log" "Processing validated event:";
              Console "log" "Enriched event with metadata:";
              Sent (Put (Processor.TABLE_NAME env) item)]
          ++ match stored with
             | Normal _ => [Console "log" "Successfully stored event in DynamoDB:"]
             | Throw _ => [Console "error" "Failed to process event:"]
             end
          ++ [Sent (PutMetricData Processor.METRICS_NAMESPACE
                      (Traces.processedData after duration status))]
          ++ Traces.swallowed
               (cloudwatch env (S (awaits w)) (Traces.processedData after duration status))
               "Failed to publish metrics:")%list
    /\ draws w' = S (draws w).
Proof.
  intros Ht eventId item stored after duration status.
  unfold Processor.handler.
  unfold bind at 1. unfold Date_now at 1. cbv beta iota.
  unfold bind at 1. unfold console at 1. cbv beta iota.
  unfold try_catch.
  unfold bind at 1. rewrite enrichEvent_run.
  unfold bind at 1. unfold console at 1. cbv beta iota.
  unfold bind at 1.
  rewrite (toStoredEvent_run _ t (time w) (time w)) by (cbn; auto).
  cbn [time awaits draws trace pe_eventId pe_chargerId pe_data].
  change (Processor.TTL_DAYS * 24 * 60 * 60) with (90 * 24 * 60 * 60).
  fold eventId. fold (Traces.storedOf v t (time w) eventId). fold item.
  unfold bind at 1. unfold Processor.storeEvent, bind, ask, send.
  cbn [awaits time draws trace]. fold stored.
  assert (Hd : time w + Z.of_nat (latency env (awaits w)) - time w = duration)
    by (subst duration; lia).
  destruct stored as [[]|e]; subst status.
  - unfold console, Date_now, ret. cbv beta iota.
    cbn [time awaits draws trace]. rewrite Hd, publishMetrics_run.
    cbn [time awaits draws trace]. fold after.
    eexists. split; [reflexivity|]. split; [|reflexivity].
    cbn [trace]. rewrite <- !app_assoc. reflexivity.
  - unfold console, Date_now, throw. cbv beta iota.
    cbn [time awaits draws trace]. rewrite Hd, publishMetrics_run.
    cbn [time awaits draws trace]. fold after.
    eexists. split; [reflexivity|]. split; [|reflexivity].
    cbn [trace]. rewrite <- !app_assoc. reflexivity.
Qed.





(** ** The query service *)


Lemma publishQueryMetrics_run d env w :
  QueryService.publishQueryMetrics d env w
  = (Normal tt,
     {| time := time w + Z.of_nat (latency env (awaits w));
        awaits := S (awaits w);
        draws := draws w;
        trace := (trace w
                  ++ [Sent (PutMetricData QueryService.METRICS_NAMESPACE
                              [Checks.queryDatum (time w) d])])
                 ++ match cloudwatch env (awaits w) [Checks.queryDatum (time w) d] with
                    | Normal _ => []
                    | Throw _ => [Console "error" "Failed to publish query metrics:"]
                    end |}).
Proof.
  unfold QueryService.publishQueryMetrics, bind, try_catch, send, console, Date_now.
  fold (Checks.queryDatum (time w) d).
  destruct (cloudwatch env (awaits w) [Checks.queryDatum (time w) d]) as [[]|e].
  - rewrite app_nil_r. reflexivity.
  - reflexivity.
Qed.

Lemma emitsQueryDuration_app tr tr' :
  Checks.emitsQueryDuration (tr ++ tr')
  = Checks.emitsQueryDuration tr || Checks.emitsQueryDuration tr'.
Proof. apply existsb_app. Qed.

Lemma publishQueryMetrics_emits d env w :
  Checks.emitsQueryDuration (trace (snd (QueryService.publishQueryMetrics d env w)))
  = true.
Proof.
  rewrite publishQueryMetrics_run. cbn [snd trace].
  rewrite !emitsQueryDuration_app. cbn. rewrite orb_true_r. reflexivity.
Qed.


Lemma query_bad_request event env w :
  Checks.noChargerId event ->
  QueryService.handler event env w = (Normal QueryService.badRequest, w).
Proof.
  intros [H | H]; unfold QueryService.handler, bind, try_catch, Date_now;
    rewrite H; reflexivity.
Qed.

(** The run of the handler once the table has answered. *)
Lemma query_answered event cid items env w :
  QueryService.requestedChargerId event = Some cid -> cid <> "" ->
  dynamoQuery env (awaits w) (QueryService.TABLE_NAME env) cid = Normal items ->
  exists w',
    Checks.emitsQueryDuration (trace w') = true
    /\ QueryService.handler event env w
       = (Normal
            match items with
            | None | Some [] => QueryService.notFound
            | Some (storedEvent :: _) =>
                match QueryService.formatResponse storedEvent with
                | Normal response =>
                    {| QueryService.statusCode := 200;
                       QueryService.headers := QueryService.jsonHeaders;
                       QueryService.body := QueryService.Found response |}
                | Throw _ => QueryService.internalError
                end
            end, w').
Proof.
  intros Hc Hne Hq. apply String.eqb_neq in Hne.
  unfold QueryService.handler.
  unfold bind at 1. unfold Date_now at 1. cbv beta iota.
  unfold try_catch. rewrite Hc, Hne.
  unfold bind at 1. unfold ask at 1. cbv beta iota.
  unfold bind at 1. unfold send at 1. rewrite Hq. cbv beta iota.
  unfold bind at 1. unfold bind at 1. unfold Date_now at 1. cbv beta iota.
  unfold ret at 1. cbv beta iota.
  unfold bind at 1. rewrite publishQueryMetrics_run. cbv beta iota.
  match goal with
  | |- context [match ?its with None => ret QueryService.notFound | _ => _ end
                  env ?wd] => set (w1 := wd)
  end.
  assert (E1 : Checks.emitsQueryDuration (trace w1) = true).
  { subst w1. cbn [trace time awaits draws]. rewrite !emitsQueryDuration_app.
    cbn. rewrite orb_true_r. reflexivity. }
  destruct items as [[|storedEvent rest]|].
  - exists w1. split; [exact E1 | reflexivity].
  - unfold bind, lift.
    destruct (QueryService.formatResponse storedEvent) as [response|e].
    + exists w1. split; [exact E1 | reflexivity].
    + unfold console, Date_now, ret. cbv beta iota.
      rewrite publishQueryMetrics_run. eexists. split; [|reflexivity].
      cbn [trace]. rewrite !emitsQueryDuration_app, E1. reflexivity.
  - exists w1. split; [exact E1 | reflexivity].
Qed.

(** The run of the handler when the table fails. *)
Lemma query_store_failure event cid e env w :
  QueryService.requestedChargerId event = Some cid -> cid <> "" ->
  dynamoQuery env (awaits w) (QueryService.TABLE_NAME env) cid = Throw e ->
  exists w',
    Checks.emitsQueryDuration (trace w') = true
    /\ QueryService.handler event env w = (Normal QueryService.internalError, w').
Proof.
  intros Hc Hne Hq. apply String.eqb_neq in Hne.
  unfold QueryService.handler.
  unfold bind at 1. unfold Date_now at 1. cbv beta iota.
  unfold try_catch. rewrite Hc, Hne.
  unfold bind at 1. unfold ask at 1. cbv beta iota.
  unfold bind at 1. unfold send at 1. rewrite Hq. cbv beta iota.
  unfold bind, console, Date_now, ret. cbv beta iota.
  rewrite publishQueryMetrics_run. eexists. split; [|reflexivity].
  cbn [trace time awaits draws]. rewrite !emitsQueryDuration_app. cbn.
  rewrite orb_true_r. reflexivity.
Qed.

(** C2.  [QueryService.handler] never throws: it returns a response
    whose status is 200, 400, 404 or 500.  A request that names no
    charger (null path parameters, no chargerId, or an empty one) gets
    the 400 error response, which is not the 404 one; a charger for
    which the table returns no item gets 404 not_found; a failure of the
    table gets the 500 response, whose body is the fixed text "Internal
    server error" whatever the error was. *)
Theorem query_outcomes env w event :
  (exists r w',
      QueryService.handler event env w = (Normal r, w')
      /\ In (QueryService.statusCode r) [200; 400; 404; 500])
  /\ (Checks.noChargerId event ->
      QueryService.handler event env w = (Normal QueryService.badRequest, w))
  /\ (forall cid,
        QueryService.requestedChargerId event = Some cid -> cid <> "" ->
        (dynamoQuery env (awaits w) (QueryService.TABLE_NAME env) cid = Normal None
         \/ dynamoQuery env (awaits w) (QueryService.TABLE_NAME env) cid
            = Normal (Some []) ->
         fst (QueryService.handler event env w) = Normal QueryService.notFound)
        /\ (forall e,
              dynamoQuery env (awaits w) (QueryService.TABLE_NAME env) cid = Throw e ->
              fst (QueryService.handler event env w)
              = Normal {| QueryService.statusCode := 500;
                          QueryService.headers := [("Content-Type", "application/json")];
                          QueryService.body :=
                            QueryService.StatusMessage "error" "Internal server error" |}))
  /\ QueryService.statusCode QueryService.badRequest = 400
  /\ QueryService.body QueryService.badRequest
     = QueryService.StatusMessage "error" "Missing required path parameter: chargerId"
  /\ QueryService.statusCode QueryService.notFound = 404.
Proof.
  split; [|split; [|split; [|repeat split]]].
  - destruct (QueryService.requestedChargerId event) as [cid|] eqn:Hc.
    2:{ exists QueryService.badRequest, w. split.
        - apply query_bad_request. left. exact Hc.
        - cbn. auto. }
    destruct (String.eqb cid "") eqn:Hne.
    { apply String.eqb_eq in Hne. subst cid.
      exists QueryService.badRequest, w. split.
      - apply query_bad_request. right. exact Hc.
      - cbn. auto. }
    apply String.eqb_neq in Hne.
    destruct (dynamoQuery env (awaits w) (QueryService.TABLE_NAME env) cid)
      as [items|e] eqn:Hq.
    + destruct (query_answered event cid items env w Hc Hne Hq) as (w' & _ & Hr).
      eexists. exists w'. split; [exact Hr|].
      destruct items as [[|storedEvent rest]|]; cbn; auto.
      destruct (QueryService.formatResponse storedEvent); cbn; auto.
    + destruct (query_store_failure event cid e env w Hc Hne Hq) as (w' & _ & Hr).
      exists QueryService.internalError, w'. split; [exact Hr|]. cbn. auto 6.
  - apply query_bad_request.
  - intros cid Hc Hne. split.
    + intros [Hq | Hq];
        destruct (query_answered event cid _ env w Hc Hne Hq) as (w' & _ & Hr);
        rewrite Hr; reflexivity.
    + intros e Hq.
      destruct (query_store_failure event cid e env w Hc Hne Hq) as (w' & _ & Hr).
      rewrite Hr. reflexivity.
Qed.

(** No chargerId: 400.  No item: 404.  The table is down: 500. *)
Lemma query_outcomes_witness :
  QueryService.handler {| QueryService.pathParameters := None |} Sample.env Sample.world
  = (Normal QueryService.badRequest, Sample.world)
  /\ fst (QueryService.handler
            {| QueryService.pathParameters := Some [("chargerId", "CHG001")] |}
            Sample.env Sample.world)
     = Normal QueryService.notFound
  /\ fst (QueryService.handler
            {| QueryService.pathParameters := Some [("chargerId", "CHG001")] |}
            Sample.envStoreDown Sample.world)
     = Normal QueryService.internalError.
Proof.
  split; [|split].
  - apply (proj1 (proj2 (query_outcomes Sample.env Sample.world
                           {| QueryService.pathParameters := None |}))).
    left. reflexivity.
  - apply (proj1 (proj2 (proj2 (query_outcomes Sample.env Sample.world
             {| QueryService.pathParameters := Some [("chargerId", "CHG001")] |})))
           "CHG001" eq_refl).
    + discriminate.
    + right. reflexivity.
  - apply (proj1 (proj2 (proj2 (query_outcomes Sample.envStoreDown Sample.world
             {| QueryService.pathParameters := Some [("chargerId", "CHG001")] |})))
           "CHG001" eq_refl) with (e := Sample.storeError).
    + discriminate.
    + reflexivity.
Defined.

(** C4, as the code has it.  A run of [QueryService.handler] adds a
    QueryDuration measurement to the trace exactly when the request names
    a charger: on the 404, 200 and 500 outcomes, and not on the 400
    outcome, where the handler returns before the measurement and leaves
    the world untouched. *)
Theorem query_duration_emitted_iff_charger_named env w event :
  Checks.emitsQueryDuration (effects (QueryService.handler event env w))
  = Checks.emitsQueryDuration (trace w)
    || match QueryService.requestedChargerId event with
       | Some cid => negb (String.eqb cid "")
       | None => false
       end.
Proof.
  unfold effects.
  destruct (QueryService.requestedChargerId event) as [cid|] eqn:Hc.
  2:{ rewrite query_bad_request by (left; exact Hc). cbn [snd].
      rewrite orb_false_r. reflexivity. }
  destruct (String.eqb cid "") eqn:Hne.
  { apply String.eqb_eq in Hne. subst cid.
    rewrite query_bad_request by (right; exact Hc). cbn [snd negb].
    rewrite orb_false_r. reflexivity. }
  apply String.eqb_neq in Hne. cbn [negb]. rewrite orb_true_r.
  destruct (dynamoQuery env (awaits w) (QueryService.TABLE_NAME env) cid)
    as [items|e] eqn:Hq.
  - destruct (query_answered event cid items env w Hc Hne Hq) as (w' & He & Hr).
    rewrite Hr. exact He.
  - destruct (query_store_failure event cid e env w Hc Hne Hq) as (w' & He & Hr).
    rewrite Hr. exact He.
Qed.

(** The request without path parameters: status 400 and an empty trace. *)
Lemma query_400_emits_nothing :
  QueryService.handler {| QueryService.pathParameters := None |} Sample.env Sample.world
  = (Normal QueryService.badRequest, Sample.world)
  /\ effects (QueryService.handler {| QueryService.pathParameters := None |}
                Sample.env Sample.world) = []
  /\ Checks.emitsQueryDuration
       (effects (QueryService.handler {| QueryService.pathParameters := None |}
                   Sample.env Sample.world)) = false.
Proof. repeat split. Qed.

(** ** The health check *)

Lemma checkDynamoDBHealth_run env w :
  exists w',
    Health.checkDynamoDBHealth env w
    = (Normal match dynamoDescribe env (awaits w) (Health.TABLE_NAME env) with
              | Normal (Some st) =>
                  if String.eqb st "ACTIVE" then Health.healthy else Health.unhealthy
              | _ => Health.unhealthy
              end, w')
    /\ awaits w' = S (awaits w).
Proof.
  unfold Health.checkDynamoDBHealth, try_catch, bind, ask, send, console, ret.
  destruct (dynamoDescribe env (awaits w) (Health.TABLE_NAME env)) as [[st|]|e].
  - destruct (String.eqb st "ACTIVE"); eexists; split; reflexivity.
  - eexists; split; reflexivity.
  - eexists; split; reflexivity.
Qed.


Lemma checkDLQHealth_run env w :
  exists w', Health.checkDLQHealth env w = (Normal (Checks.dlqAnswer env w), w').
Proof.
  unfold Health.checkDLQHealth, Checks.dlqAnswer, try_catch, bind, ask, send, console, ret.
  destruct (env_DLQ_URL env) as [url|]; [|eauto].
  destruct (Health.noDLQ env); [eauto|].
  destruct (sqsAttributes env (awaits w) url) as [a|e]; eauto.
Qed.

Lemma dlqAnswer_status env w :
  fst (Checks.dlqAnswer env w)
  = if Health.gt10 (snd (Checks.dlqAnswer env w)) then Health.degraded else Health.healthy.
Proof.
  unfold Checks.dlqAnswer.
  destruct (env_DLQ_URL env) as [url|]; [|reflexivity].
  destruct (Health.noDLQ env); [reflexivity|].
  destruct (sqsAttributes env (awaits w) url) as [a|e]; reflexivity.
Qed.

(** C3.  The health check returns 200 with an overall verdict that is a
    function of the two sub-checks: unhealthy when the store check is
    unhealthy, whatever the dead-letter queue; otherwise degraded exactly
    when the dead-letter depth exceeds 10; otherwise healthy.  The
    dead-letter check answers degraded exactly when the depth exceeds
    10; without a configured queue, and when reading the depth fails, it
    answers healthy with depth 0, and the verdict is then healthy unless
    the store is unhealthy. *)
Theorem health_verdict env w :
  exists store dl depth w1 w2 r,
    Health.checkDynamoDBHealth env w = (Normal store, w1)
    /\ (store = Health.healthy \/ store = Health.unhealthy)
    /\ Health.checkDLQHealth env w1 = (Normal (dl, depth), w2)
    /\ dl = (if Health.gt10 depth then Health.degraded else Health.healthy)
    /\ Health.handler env w = (Normal r, w2)
    /\ Health.statusCode r = 200
    /\ Health.dynamodb (Health.components (Health.body r)) = store
    /\ Health.status (Health.body r) = Checks.verdict store depth
    /\ (store = Health.unhealthy -> Health.status (Health.body r) = Health.unhealthy)
    /\ (store = Health.healthy ->
        (Health.status (Health.body r) = Health.degraded <-> Health.gt10 depth = true)
        /\ (Health.status (Health.body r) = Health.healthy <-> Health.gt10 depth = false))
    /\ (Health.noDLQ env = true ->
        (dl, depth) = (Health.healthy, Some 0)
        /\ Health.status (Health.body r)
           = match store with Health.unhealthy => Health.unhealthy | _ => Health.healthy end)
    /\ (forall url e,
          env_DLQ_URL env = Some url -> sqsAttributes env (awaits w1) url = Throw e ->
          (dl, depth) = (Health.healthy, Some 0)
          /\ Health.status (Health.body r)
             = match store with Health.unhealthy => Health.unhealthy | _ => Health.healthy end).
Proof.
  destruct (checkDynamoDBHealth_run env w) as (w1 & Hs & _).
  destruct (checkDLQHealth_run env w1) as (w2 & Hd).
  set (store := match dynamoDescribe env (awaits w) (Health.TABLE_NAME env) with
                | Normal (Some st) =>
                    if String.eqb st "ACTIVE" then Health.healthy else Health.unhealthy
                | _ => Health.unhealthy
                end) in *.
  assert (Hstore : store = Health.healthy \/ store = Health.unhealthy).
  { subst store. destruct (dynamoDescribe _ _ _) as [[st|]|e]; auto.
    destruct (String.eqb st "ACTIVE"); auto. }
  pose proof (dlqAnswer_status env w1) as Hdl.
  destruct (Checks.dlqAnswer env w1) as [dl depth] eqn:Ha. cbn [fst snd] in Hdl.
  assert (Hh : exists r,
             Health.handler env w = (Normal r, w2)
             /\ Health.statusCode r = 200
             /\ Health.dynamodb (Health.components (Health.body r)) = store
             /\ Health.status (Health.body r) = Checks.verdict store depth).
  { unfold Health.handler, try_catch. unfold bind at 1. rewrite Hs.
    unfold bind at 1. rewrite Hd. unfold bind, ask, ret. cbn [fst snd].
    eexists. split; [reflexivity|]. cbn [Health.statusCode Health.body Health.status].
    split; [reflexivity|]. split.
    - destruct (Health.noDLQ env); reflexivity.
    - rewrite Hdl. unfold Checks.verdict.
      destruct Hstore as [-> | ->]; cbn [Health.Status_eqb]; [|reflexivity].
      destruct (Health.gt10 depth); reflexivity. }
  destruct Hh as (r & Hr & Hc & Hcomp & Hv).
  exists store, dl, depth, w1, w2, r.
  assert (Hzero : (dl, depth) = (Health.healthy, Some 0) ->
                  Health.status (Health.body r)
                  = match store with
                    | Health.unhealthy => Health.unhealthy
                    | _ => Health.healthy
                    end).
  { intros E. injection E as -> ->. rewrite Hv. unfold Checks.verdict.
    destruct store; reflexivity. }
  repeat match goal with |- _ /\ _ => split end; auto.
  - intros ->. rewrite Hv. reflexivity.
  - intros ->. rewrite Hv. unfold Checks.verdict.
    destruct (Health.gt10 depth); split; split; congruence.
  - intros Hn. assert (E : (dl, depth) = (Health.healthy, Some 0)).
    { rewrite <- Ha. unfold Checks.dlqAnswer. rewrite Hn.
      destruct (env_DLQ_URL env); reflexivity. }
    split; [exact E | exact (Hzero E)].
  - intros url e Hu Hq. assert (E : (dl, depth) = (Health.healthy, Some 0)).
    { rewrite <- Ha. unfold Checks.dlqAnswer. rewrite Hu, Hq.
      destruct (Health.noDLQ env); reflexivity. }
    split; [exact E | exact (Hzero E)].
Qed.

(** Without a dead-letter queue and with an active table the verdict is
    healthy; with 11 messages in the queue it is degraded; with the table
    down it is unhealthy. *)
Lemma health_verdict_witness :
  (exists r w',
      Health.handler Sample.envNoDLQ Sample.world = (Normal r, w')
      /\ Health.status (Health.body r) = Health.healthy)
  /\ (exists r w',
        Health.handler Sample.env Sample.world = (Normal r, w')
        /\ Health.status (Health.body r) = Health.degraded)
  /\ (exists r w',
        Health.handler Sample.envStoreDown Sample.world = (Normal r, w')
        /\ Health.status (Health.body r) = Health.unhealthy).
Proof.
  split; [|split].
  - destruct (health_verdict Sample.envNoDLQ Sample.world)
      as (store & dl & depth & w1 & w2 & r & Hs & _ & _ & _ & Hr & _ & _ & _ & _ & _
          & Hn & _).
    exists r, w2. split; [exact Hr|].
    destruct (Hn eq_refl) as [_ Hst]. rewrite Hst.
    vm_compute in Hs. injection Hs as <- _. reflexivity.
  - destruct (health_verdict Sample.env Sample.world)
      as (store & dl & depth & w1 & w2 & r & Hs & _ & Hd & _ & Hr & _ & _ & _ & _ & Hh
          & _).
    exists r, w2. split; [exact Hr|].
    vm_compute in Hs. injection Hs as <- <-.
    vm_compute in Hd. injection Hd as _ <- _.
    apply (proj1 (Hh eq_refl)). reflexivity.
  - destruct (health_verdict Sample.envStoreDown Sample.world)
      as (store & dl & depth & w1 & w2 & r & Hs & _ & _ & _ & Hr & _ & _ & _ & Hu & _).
    exists r, w2. split; [exact Hr|].
    apply Hu. vm_compute in Hs. injection Hs as <- _. reflexivity.
Defined.

(* ===================================================================== *)
(** * Further properties of the code *)
(* ===================================================================== *)

(** ** Validation *)

(** The timestamp check in terms of time values alone. *)
Lemma isValidTimestamp_iff_serialization env s :
  isValidTimestamp env (JStr s) = true <->
  exists t, inTimeRange t = true /\ isoString t = s.
Proof.
  split.
  - intros H. destruct (isValidTimestamp_parsed _ _ H) as (s' & t & Hs & Hd & Hi).
    injection Hs as <-. exists t. split; [exact (newDate_inRange _ _ _ Hd) | exact Hi].
  - intros (t & Hr & Hi). rewrite isValidTimestamp_string, <- Hi.
    rewrite newDate_isoString by exact Hr. rewrite String.eqb_refl, andb_true_r.
    apply negb_true_iff, String.eqb_neq, isoString_nonempty.
Qed.

(** The sample event of 10:30:00.000 is accepted at that very time. *)
Lemma sample_event_accepted :
  Validator.validateEvent (Sample.event "2024-01-15T10:30:00.000Z") Sample.env Sample.world
  = (Normal {| Validator.isValid := true;
               Validator.rejectionReason := None;
               Validator.validatedEvent := Some Sample.validated |}, Sample.world).
Proof. vm_compute. reflexivity. Qed.

(** What holds of an accepted event. *)
Lemma validateEvent_accepted_fields event env w r w' :
  Validator.validateEvent event env w = (Normal r, w') ->
  Validator.isValid r = true ->
  exists chargerId s t,
    prop event "chargerId" = JStr chargerId
    /\ pattern_test chargerId = true
    /\ prop event "timestamp" = JStr s
    /\ isoString t = s
    /\ inTimeRange t = true
    /\ t <= time w + 5 * 60 * 1000
    /\ Validator.validatedEvent r
       = Some {| ve_chargerId := chargerId;
                 ve_timestamp := Some t;
                 ve_data := prop event "data" |}
    /\ Validator.rejectionReason r = None
    /\ w' = w.
Proof.
  intros H Hv.
  destruct (truthy (prop event "chargerId")) eqn:H1.
  2:{ rewrite validateEvent_missing_chargerId in H by assumption.
      injection H as <- _. discriminate. }
  destruct (truthy (prop event "timestamp")) eqn:H2.
  2:{ rewrite validateEvent_missing_timestamp in H by assumption.
      injection H as <- _. discriminate. }
  destruct (isValidChargerId (prop event "chargerId")) eqn:H3.
  2:{ rewrite validateEvent_bad_chargerId in H by assumption.
      injection H as <- _. discriminate. }
  destruct (isValidTimestamp env (prop event "timestamp")) eqn:H4.
  2:{ rewrite validateEvent_bad_timestamp in H by assumption.
      injection H as <- _. discriminate. }
  destruct (isValidChargerId_string _ H3) as (c & Hc & Hp).
  destruct (isValidTimestamp_parsed _ _ H4) as (s & t & Hs & Hd & Hi).
  rewrite (validateEvent_parsed event env w c s t Hc Hp Hs Hd Hi) in H.
  change (5 * 60 * 1000) with clockSkewMs.
  destruct (time w + clockSkewMs <? t) eqn:E.
  { injection H as <- _. discriminate. }
  apply Z.ltb_ge in E. injection H as <- <-.
  exists c, s, t. repeat split; auto. exact (newDate_inRange _ _ _ Hd).
Qed.

(** X1.  An event that [validateEvent] accepts has a chargerId that is a
    string matching the pattern and a timestamp string that is the
    serialization of a time value in the range of a Date, not later than
    the clock plus five minutes; the validated event carries that
    chargerId, that time value and the [data] field as it came, and the
    world is unchanged. *)
Theorem validateEvent_accepts_invariant event env w r w' :
  Validator.validateEvent event env w = (Normal r, w') ->
  Validator.isValid r = true ->
  exists chargerId s t,
    prop event "chargerId" = JStr chargerId
    /\ pattern_test chargerId = true
    /\ prop event "timestamp" = JStr s
    /\ isoString t = s
    /\ inTimeRange t = true
    /\ t <= time w + 5 * 60 * 1000
    /\ Validator.validatedEvent r
       = Some {| ve_chargerId := chargerId;
                 ve_timestamp := Some t;
                 ve_data := prop event "data" |}
    /\ Validator.rejectionReason r = None
    /\ w' = w.
Proof. exact (validateEvent_accepted_fields event env w r w'). Qed.

Lemma validateEvent_accepts_invariant_witness :
  exists t,
    isoString t = "2024-01-15T10:30:00.000Z"
    /\ inTimeRange t = true
    /\ t <= time Sample.world + 5 * 60 * 1000.
Proof.
  destruct (validateEvent_accepts_invariant (Sample.event "2024-01-15T10:30:00.000Z")
              Sample.env Sample.world _ _ sample_event_accepted eq_refl)
    as (c & s & t & _ & _ & Hs & Hi & Hr & Hle & _).
  exists t. injection Hs as <-. auto.
Defined.

(** X2.  Whether a timestamp is valid does not depend on the host: a
    string is accepted exactly when it is the [toISOString] form of some
    time value in the range of a Date, whatever the local time zone and
    whatever other date formats the implementation of [Date.parse] reads. *)
Theorem isValidTimestamp_host_independent env tza legacy v :
  isValidTimestamp (Traces.withHost tza legacy env) v = isValidTimestamp env v
  /\ (isValidTimestamp env v = true <->
      exists s t, v = JStr s /\ inTimeRange t = true /\ isoString t = s).
Proof.
  assert (Hiff : forall e,
             isValidTimestamp e v = true <->
             exists s t, v = JStr s /\ inTimeRange t = true /\ isoString t = s).
  { intros e. split.
    - intros H. destruct (isValidTimestamp_parsed _ _ H) as (s & t & Hs & Hd & Hi).
      exists s, t. repeat split; auto. exact (newDate_inRange _ _ _ Hd).
    - intros (s & t & -> & Hr & Hi). apply isValidTimestamp_iff_serialization. eauto. }
  split; [|apply Hiff].
  destruct (isValidTimestamp env v) eqn:E.
  - apply Hiff. apply (Hiff env). exact E.
  - destruct (isValidTimestamp (Traces.withHost tza legacy env) v) eqn:E'; [|reflexivity].
    apply Hiff in E'. apply (Hiff env) in E'. congruence.
Qed.

Lemma length_append (s1 s2 : string) :
  String.length (s1 ++ s2) = (String.length s1 + String.length s2)%nat.
Proof. induction s1 as [|c s1 IH]; cbn; [reflexivity | rewrite IH; reflexivity]. Qed.

Lemma length_fmtDigits w v : String.length (fmtDigits w v) = w.
Proof. induction w as [|w IH]; cbn; [reflexivity | rewrite IH; reflexivity]. Qed.

Lemma length_isoString t :
  String.length (isoString t)
  = if (0 <=? YearFromTime t) && (YearFromTime t <=? 9999) then 24%nat else 27%nat.
Proof.
  unfold isoString, fmtYear. rewrite length_append.
  cbn [String.append String.length]. rewrite !length_append, !length_fmtDigits.
  cbn [String.append String.length].
  destruct ((0 <=? YearFromTime t) && (YearFromTime t <=? 9999)).
  - rewrite length_fmtDigits. reflexivity.
  - destruct (YearFromTime t <? 0); cbn [String.length]; rewrite length_fmtDigits;
      reflexivity.
Qed.

(** X3.  An accepted timestamp has 24 characters, or 27 when its year is
    outside 0000..9999 and written with a sign and six digits; shorter
    forms (no seconds, no milliseconds, date only) are never accepted. *)
Theorem isValidTimestamp_length env s :
  isValidTimestamp env (JStr s) = true ->
  String.length s = 24%nat \/ String.length s = 27%nat.
Proof.
  intros H. apply isValidTimestamp_iff_serialization in H.
  destruct H as (t & _ & <-). rewrite length_isoString.
  destruct ((0 <=? YearFromTime t) && (YearFromTime t <=? 9999)); auto.
Qed.

Lemma isValidTimestamp_length_witness :
  String.length "2024-01-15T10:30:00.000Z" = 24%nat
  \/ String.length "2024-01-15T10:30:00.000Z" = 27%nat.
Proof.
  exact (isValidTimestamp_length Sample.env "2024-01-15T10:30:00.000Z" eq_refl).
Defined.

Lemma allInClass_Forall s :
  allInClass s = true <-> Forall (fun c => inClass c = true) (Traces.chars s).
Proof.
  induction s as [|c s IH]; cbn.
  - split; auto.
  - rewrite andb_true_iff, IH. split.
    + intros [H1 H2]. constructor; assumption.
    + intros H. inversion H; subst. auto.
Qed.

Lemma chars_append s1 s2 :
  Traces.chars (s1 ++ s2) = (Traces.chars s1 ++ Traces.chars s2)%list.
Proof. induction s1 as [|c s1 IH]; cbn; [reflexivity | rewrite IH; reflexivity]. Qed.

(** X4.  [isValidChargerId] holds exactly of the non-empty strings all of
    whose characters are letters, digits, underscore or hyphen: one
    character outside the class anywhere in the string, a trailing line
    feed included, makes the check fail. *)
Theorem isValidChargerId_iff v :
  (isValidChargerId v = true <->
   exists s, v = JStr s /\ s <> ""
             /\ Forall (fun c => inClass c = true) (Traces.chars s))
  /\ (forall s1 c s2, inClass c = false ->
                      isValidChargerId (JStr (s1 ++ String c s2)) = false).
Proof.
  assert (Hp : forall s, pattern_test s = true <->
                         s <> "" /\ Forall (fun c => inClass c = true) (Traces.chars s)).
  { intros s. destruct s as [|c s].
    - cbn. split; [discriminate | intros [H _]; contradiction].
    - change (pattern_test (String c s)) with (allInClass (String c s)).
      rewrite allInClass_Forall. split; [intros H; split; [discriminate | exact H]
                                        | intros [_ H]; exact H]. }
  split.
  - rewrite isValidChargerId_matches. split.
    + destruct v; cbn; try discriminate. intros H. exists s. split; [reflexivity|].
      apply Hp. exact H.
    + intros (s & -> & H). cbn. apply Hp. exact H.
  - intros s1 c s2 Hc. rewrite isValidChargerId_matches. cbn.
    destruct (pattern_test (s1 ++ String c s2)) eqn:E; [|reflexivity].
    apply Hp in E. destruct E as [_ E]. rewrite chars_append in E.
    apply Forall_app in E. destruct E as [_ E]. cbn in E. inversion E; subst.
    congruence.
Qed.

(** A line feed after an otherwise good identifier. *)
Lemma isValidChargerId_iff_witness :
  isValidChargerId (JStr ("CHG001" ++ String "010" "")) = false.
Proof.
  exact (proj2 (isValidChargerId_iff JUndefined) "CHG001" "010"%char "" eq_refl).
Defined.

(** ** The validator's handler on an accepted event *)

(** The run of the validator's handler on an accepted event. *)
Lemma validator_handler_accepted_trace event ve env w :
  Validator.validateEvent event env w
  = (Normal {| Validator.isValid := true;
               Validator.rejectionReason := None;
               Validator.validatedEvent := Some ve |}, w) ->
  let metric := cloudwatch env (awaits w) [Traces.validatedDatum (time w)] in
  let invoked := lambda env (S (awaits w)) (Validator.PROCESSOR_LAMBDA_NAME env) ve in
  exists w',
    Validator.handler event env w
    = (match invoked with Normal _ => Normal tt | Throw e => Throw e end, w')
    /\ trace w'
       = (trace w
          ++ [Console "log" "Received event:";
              Sent (PutMetricData Validator.METRICS_NAMESPACE
                      [Traces.validatedDatum (time w)])]
          ++ Traces.swallowed metric "Failed to publish validation metrics:"
          ++ [Sent (Invoke (Validator.PROCESSOR_LAMBDA_NAME env) "Event" ve)]
          ++ match invoked with
             | Normal _ => [Console "log" "Successfully forwarded event to Processor Lambda:"]
             | Throw _ => [Console "error" "Failed to invoke Processor Lambda:"]
             end)%list
    /\ awaits w' = S (S (awaits w)).
Proof.
  intros H metric invoked. unfold Validator.handler.
  unfold bind at 1. unfold console at 1. cbv beta iota.
  set (w1 := {| time := time w; awaits := awaits w; draws := draws w;
                trace := trace w ++ [Console "log" "Received event:"] |}).
  assert (H1 : Validator.validateEvent event env w1
               = (Normal {| Validator.isValid := true;
                            Validator.rejectionReason := None;
                            Validator.validatedEvent := Some ve |}, w1)).
  { rewrite (validateEvent_world event env w w1) by reflexivity. rewrite H. reflexivity. }
  unfold bind at 1. rewrite H1. cbn [Validator.isValid negb].
  unfold Validator.publishValidationMetrics, Validator.invokeProcessorLambda,
    bind, try_catch, send, console, ret, ask, Date_now, throw.
  cbn [Validator.validatedEvent time awaits draws trace w1].
  fold (Traces.validatedDatum (time w)). fold metric.
  destruct metric as [[]|e1]; cbn [time awaits draws trace Traces.swallowed];
    fold invoked; destruct invoked as [[]|e2]; cbn [time awaits draws trace];
    eexists; (split; [reflexivity|]); (split; [|reflexivity]);
    rewrite <- ?app_assoc; reflexivity.
Qed.

(** X5.  For an accepted event the handler logs the reception, sends the
    EventsValidated measurement (a failure of that call leaves one
    console line and nothing else), then sends exactly one asynchronous
    ('Event') invocation of the processor carrying the validated event;
    it returns normally when the invocation is accepted and throws the
    invocation's error otherwise.  The measurement is sent before the
    invocation, so it is sent also when the invocation fails. *)
Theorem validator_handler_accepted_run event ve env w :
  Validator.validateEvent event env w
  = (Normal {| Validator.isValid := true;
               Validator.rejectionReason := None;
               Validator.validatedEvent := Some ve |}, w) ->
  let metric := cloudwatch env (awaits w) [Traces.validatedDatum (time w)] in
  let invoked := lambda env (S (awaits w)) (Validator.PROCESSOR_LAMBDA_NAME env) ve in
  exists w',
    Validator.handler event env w
    = (match invoked with Normal _ => Normal tt | Throw e => Throw e end, w')
    /\ trace w'
       = (trace w
          ++ [Console "log" "Received event:";
              Sent (PutMetricData Validator.METRICS_NAMESPACE
                      [Traces.validatedDatum (time w)])]
          ++ Traces.swallowed metric "Failed to publish validation metrics:"
          ++ [Sent (Invoke (Validator.PROCESSOR_LAMBDA_NAME env) "Event" ve)]
          ++ match invoked with
             | Normal _ => [Console "log" "Successfully forwarded event to Processor Lambda:"]
             | Throw _ => [Console "error" "Failed to invoke Processor Lambda:"]
             end)%list
    /\ awaits w' = S (S (awaits w)).
Proof. exact (validator_handler_accepted_trace event ve env w). Qed.

Lemma validator_handler_accepted_run_witness :
  exists w',
    Validator.handler (Sample.event "2024-01-15T10:30:00.000Z") Sample.env Sample.world
    = (Normal tt, w')
    /\ awaits w' = 2%nat.
Proof.
  destruct (validator_handler_accepted_run (Sample.event "2024-01-15T10:30:00.000Z")
              _ Sample.env Sample.world sample_event_accepted) as (w' & Hr & _ & Ha).
  exists w'. split; [exact Hr | exact Ha].
Defined.

(** ** The processor's handler *)



(** The run of the processor's handler on an Invalid Date. *)
Lemma processor_handler_invalid_trace v env w :
  ve_timestamp v = None ->
  exists w',
    Processor.handler v env w = (Throw (RangeError "Invalid time value"), w')
    /\ trace w'
       = (trace w
          ++ [Console "log" "Processing validated event:";
              Console "log" "Enriched event with metadata:";
              Console "error" "Failed to process event:";
              Sent (PutMetricData Processor.METRICS_NAMESPACE
                      (Traces.processedData (time w) 0 "failure"))]
          ++ Traces.swallowed
               (cloudwatch env (awaits w) (Traces.processedData (time w) 0 "failure"))
               "Failed to publish metrics:")%list
    /\ existsb Checks.isWrite (trace w') = existsb Checks.isWrite (trace w).
Proof.
  intros Ht. unfold Processor.handler.
  unfold bind at 1. unfold Date_now at 1. cbv beta iota.
  unfold bind at 1. unfold console at 1. cbv beta iota.
  unfold try_catch.
  unfold bind at 1. rewrite enrichEvent_run.
  unfold bind at 1. unfold console at 1. cbv beta iota.
  unfold bind at 1. unfold Processor.toStoredEvent.
  unfold bind at 1. unfold Date_now at 1. cbv beta iota.
  unfold bind at 1. unfold lift at 1. cbn [pe_timestamp]. rewrite Ht.
  cbn [toISOString].
  unfold bind, console, Date_now, throw. cbv beta iota.
  cbn [time awaits draws trace]. rewrite Z.sub_diag, publishMetrics_run.
  cbn [time awaits draws trace].
  eexists. split; [reflexivity|]. split.
  - cbn [trace]. rewrite <- !app_assoc. reflexivity.
  - cbn [trace]. rewrite !existsb_app. cbn [existsb Checks.isWrite orb].
    destruct (cloudwatch env (awaits w) _); cbn [Traces.swallowed existsb Checks.isWrite orb];
      rewrite ?orb_false_r; reflexivity.
Qed.

(** X7.  A validated event whose timestamp is an Invalid Date is never
    written: [toStoredEvent] throws a RangeError before any Put, and the
    handler logs the failure, sends a 'failure' measurement and throws
    the RangeError to its caller. *)
Theorem processor_handler_invalid_date v env w :
  ve_timestamp v = None ->
  exists w' now duration,
    Processor.handler v env w = (Throw (RangeError "Invalid time value"), w')
    /\ trace w'
       = (trace w
          ++ [Console "log" "Processing validated event:";
              Console "log" "Enriched event with metadata:";
              Console "error" "Failed to process event:";
              Sent (PutMetricData "TelemetryService"
                      (Traces.processedData now duration "failure"))]
          ++ Traces.swallowed
               (cloudwatch env (awaits w) (Traces.processedData now duration "failure"))
               "Failed to publish metrics:")%list
    /\ existsb Checks.isWrite (trace w') = existsb Checks.isWrite (trace w).
Proof.
  intros Ht.
  destruct (processor_handler_invalid_trace v env w Ht) as (w' & Hr & Htr & Hw).
  exists w', (time w), 0. split; [exact Hr|]. split; [exact Htr | exact Hw].
Qed.

Lemma processor_handler_invalid_date_witness :
  exists w',
    Processor.handler {| ve_chargerId := "CHG001"; ve_timestamp := None;
                         ve_data := JUndefined |} Sample.env Sample.world
    = (Throw (RangeError "Invalid time value"), w')
    /\ existsb Checks.isWrite (trace w') = false.
Proof.
  destruct (processor_handler_invalid_date
              {| ve_chargerId := "CHG001"; ve_timestamp := None; ve_data := JUndefined |}
              Sample.env Sample.world eq_refl) as (w' & now & duration & Hr & _ & Hw).
  exists w'. split; [exact Hr | exact Hw].
Defined.

(** ** Metrics never decide an outcome *)

Lemma validateEvent_withCloudwatch cw event env w :
  Validator.validateEvent event (Traces.withCloudwatch cw env) w
  = Validator.validateEvent event env w.
Proof.
  unfold Validator.validateEvent, bind, ask.
  destruct (negb (truthy (prop event "chargerId"))); [reflexivity|].
  destruct (negb (truthy (prop event "timestamp"))); [reflexivity|].
  destruct (negb (isValidChargerId (prop event "chargerId"))); [reflexivity|].
  change (isValidTimestamp (Traces.withCloudwatch cw env) (prop event "timestamp"))
    with (isValidTimestamp env (prop event "timestamp")).
  destruct (negb (isValidTimestamp env (prop event "timestamp"))); [reflexivity|].
  destruct (prop event "chargerId"); try reflexivity.
  destruct (prop event "timestamp"); try reflexivity.
  rewrite !isFutureTimestamp_run.
  change (newDate (Traces.withCloudwatch cw env) s0) with (newDate env s0).
  destruct (gtTime _ _); reflexivity.
Qed.

(** [validateEvent] rejects with a reason or accepts with an event. *)
Lemma validateEvent_cases event env w :
  (exists reason,
      Validator.validateEvent event env w = (Normal (Validator.rejected reason), w))
  \/ (exists ve,
        Validator.validateEvent event env w
        = (Normal {| Validator.isValid := true;
                     Validator.rejectionReason := None;
                     Validator.validatedEvent := Some ve |}, w)).
Proof.
  pose proof (validateEvent_first_violation env w event) as H.
  destruct (Checks.violated env (time w) event); [right | left]; eauto.
Qed.

Lemma validator_handler_result event env w :
  fst (Validator.handler event env w)
  = match fst (Validator.validateEvent event env w) with
    | Normal r =>
        match Validator.validatedEvent r with
        | Some ve =>
            match lambda env (S (awaits w)) (Validator.PROCESSOR_LAMBDA_NAME env) ve with
            | Normal _ => Normal tt
            | Throw e => Throw e
            end
        | None => Normal tt
        end
    | Throw e => Throw e
    end.
Proof.
  destruct (validateEvent_cases event env w) as [[reason H] | [ve H]].
  - destruct (validator_handler_rejected event reason env w H) as (w' & Hr & _).
    rewrite Hr, H. reflexivity.
  - destruct (validator_handler_accepted_trace event ve env w H) as (w' & Hr & _).
    rewrite Hr, H. reflexivity.
Qed.

Lemma processor_handler_result v env w :
  fst (Processor.handler v env w)
  = match ve_timestamp v with
    | Some t =>
        match dynamoPut env (awaits w) (Processor.TABLE_NAME env)
                (Traces.storedOf v t (time w) (randomUUID env (draws w))) with
        | Normal _ =>
            Normal {| Processor.statusCode := 200;
                      Processor.body_message := "Event processed successfully";
                      Processor.body_eventId := randomUUID env (draws w) |}
        | Throw e => Throw e
        end
    | None => Throw (RangeError "Invalid time value")
    end.
Proof.
  destruct (ve_timestamp v) as [t|] eqn:Ht.
  - destruct (processor_handler_trace v t env w Ht) as (w' & Hr & _).
    rewrite Hr. reflexivity.
  - destruct (processor_handler_invalid_trace v env w Ht) as (w' & Hr & _).
    rewrite Hr. reflexivity.
Qed.

Lemma query_handler_result event env w :
  fst (QueryService.handler event env w)
  = match QueryService.requestedChargerId event with
    | None => Normal QueryService.badRequest
    | Some cid =>
        if String.eqb cid "" then Normal QueryService.badRequest
        else
          match dynamoQuery env (awaits w) (QueryService.TABLE_NAME env) cid with
          | Normal (Some (storedEvent :: _)) =>
              match QueryService.formatResponse storedEvent with
              | Normal response =>
                  Normal {| QueryService.statusCode := 200;
                            QueryService.headers := QueryService.jsonHeaders;
                            QueryService.body := QueryService.Found response |}
              | Throw _ => Normal QueryService.internalError
              end
          | Normal _ => Normal QueryService.notFound
          | Throw _ => Normal QueryService.internalError
          end
    end.
Proof.
  destruct (QueryService.requestedChargerId event) as [cid|] eqn:Hc.
  2:{ rewrite query_bad_request by (left; exact Hc). reflexivity. }
  destruct (String.eqb cid "") eqn:Hne.
  { apply String.eqb_eq in Hne. subst cid.
    rewrite query_bad_request by (right; exact Hc). reflexivity. }
  apply String.eqb_neq in Hne.
  destruct (dynamoQuery env (awaits w) (QueryService.TABLE_NAME env) cid)
    as [items|e] eqn:Hq.
  - destruct (query_answered event cid items env w Hc Hne Hq) as (w' & _ & Hr).
    rewrite Hr. cbn [fst]. destruct items as [[|storedEvent rest]|]; try reflexivity.
    destruct (QueryService.formatResponse storedEvent); reflexivity.
  - destruct (query_store_failure event cid e env w Hc Hne Hq) as (w' & _ & Hr).
    rewrite Hr. reflexivity.
Qed.

(** X8.  What the metrics service answers never changes what a handler
    returns or throws: the validator's, the processor's and the query
    handler's outcome is the same with any metrics service put in the
    place of the one at hand, a failing one included. *)
Theorem handlers_ignore_metric_failures cw env w :
  (forall event,
      fst (Validator.handler event (Traces.withCloudwatch cw env) w)
      = fst (Validator.handler event env w))
  /\ (forall v,
        fst (Processor.handler v (Traces.withCloudwatch cw env) w)
        = fst (Processor.handler v env w))
  /\ (forall event,
        fst (QueryService.handler event (Traces.withCloudwatch cw env) w)
        = fst (QueryService.handler event env w)).
Proof.
  split; [|split].
  - intros event. rewrite !validator_handler_result, validateEvent_withCloudwatch.
    reflexivity.
  - intros v. rewrite !processor_handler_result. reflexivity.
  - intros event. rewrite !query_handler_result. reflexivity.
Qed.

(** ** From the device to the table and back *)

(** X9.  What the validator accepts is stored as it was sent: for an
    accepted event, [enrichEvent] then [toStoredEvent] on the validated
    event (at any later time) never throws, and the record's chargerId,
    timestamp string and data are the event's own fields, the timestamp
    character for character. *)
Theorem accepted_event_is_stored_verbatim event env w r w1 ve env2 w2 :
  Validator.validateEvent event env w = (Normal r, w1) ->
  Validator.validatedEvent r = Some ve ->
  exists se w',
    bind (Processor.enrichEvent ve) Processor.toStoredEvent env2 w2 = (Normal se, w')
    /\ JStr (se_chargerId se) = prop event "chargerId"
    /\ JStr (se_timestamp se) = prop event "timestamp"
    /\ se_data se = prop event "data".
Proof.
  intros H Hve.
  assert (Hv : Validator.isValid r = true).
  { destruct (validateEvent_cases event env w) as [[reason H'] | [ve' H']];
      rewrite H' in H; injection H as <- _; [discriminate Hve | reflexivity]. }
  destruct (validateEvent_accepted_fields event env w r w1 H Hv)
    as (c & s & t & Hc & _ & Hs & Hi & _ & _ & Hve' & _).
  rewrite Hve in Hve'. injection Hve' as ->.
  do 2 eexists. unfold bind at 1. rewrite enrichEvent_run.
  rewrite (toStoredEvent_run _ t (time w2) (time w2)) by reflexivity.
  cbn. rewrite Hc, Hs, Hi. repeat split; reflexivity.
Qed.

Lemma accepted_event_is_stored_verbatim_witness :
  exists se w',
    bind (Processor.enrichEvent Sample.validated) Processor.toStoredEvent
      Sample.env Sample.world = (Normal se, w')
    /\ JStr (se_chargerId se) = JStr "CHG001"
    /\ JStr (se_timestamp se) = JStr "2024-01-15T10:30:00.000Z"
    /\ se_data se = Sample.voltage.
Proof.
  exact (accepted_event_is_stored_verbatim (Sample.event "2024-01-15T10:30:00.000Z")
           Sample.env Sample.world _ _ Sample.validated Sample.env Sample.world
           sample_event_accepted eq_refl).
Defined.

(** ** The query handler on what the table returns *)

Lemma formatResponse_object fields :
  QueryService.formatResponse (JObj fields)
  = match getProp (prop fields "metadata") "receivedAt",
          getProp (prop fields "metadata") "processedAt" with
    | Normal receivedAt, Normal processedAt =>
        Normal {| QueryService.qr_chargerId := prop fields "chargerId";
                  QueryService.qr_timestamp := prop fields "timestamp";
                  QueryService.qr_data := prop fields "data";
                  QueryService.qr_receivedAt := receivedAt;
                  QueryService.qr_processedAt := processedAt |}
    | Throw e, _ | _, Throw e => Throw e
    end.
Proof. reflexivity. Qed.

(** X10.  When the table returns items, the response is built from the
    first one alone: status 200 with the item's chargerId, timestamp and
    data and the receivedAt and processedAt of its metadata, each as
    stored (undefined when the item lacks it); the other items and the
    other attributes of the item do not show. *)
Theorem query_found_first_item event cid fields metadata rest env w :
  QueryService.requestedChargerId event = Some cid -> cid <> "" ->
  dynamoQuery env (awaits w) (QueryService.TABLE_NAME env) cid
  = Normal (Some (JObj fields :: rest)) ->
  prop fields "metadata" = JObj metadata ->
  fst (QueryService.handler event env w)
  = Normal {| QueryService.statusCode := 200;
              QueryService.headers := [("Content-Type", "application/json")];
              QueryService.body :=
                QueryService.Found
                  {| QueryService.qr_chargerId := prop fields "chargerId";
                     QueryService.qr_timestamp := prop fields "timestamp";
                     QueryService.qr_data := prop fields "data";
                     QueryService.qr_receivedAt := prop metadata "receivedAt";
                     QueryService.qr_processedAt := prop metadata "processedAt" |} |}.
Proof.
  intros Hc Hne Hq Hm. apply String.eqb_neq in Hne.
  rewrite query_handler_result, Hc, Hne, Hq, formatResponse_object, Hm. reflexivity.
Qed.

Lemma countQueryDuration_app tr tr' :
  Traces.countQueryDuration (tr ++ tr')
  = (Traces.countQueryDuration tr + Traces.countQueryDuration tr')%nat.
Proof. unfold Traces.countQueryDuration. rewrite filter_app, length_app. reflexivity. Qed.

Lemma countQueryDuration_swallowed (a : Completion unit) label :
  Traces.countQueryDuration
    match a with Normal _ => [] | Throw _ => [Console "error" label] end = 0%nat.
Proof. destruct a as [[]|e]; reflexivity. Qed.

Lemma publishQueryMetrics_count d env w :
  Traces.countQueryDuration (trace (snd (QueryService.publishQueryMetrics d env w)))
  = S (Traces.countQueryDuration (trace w)).
Proof.
  rewrite publishQueryMetrics_run. cbn [snd trace].
  rewrite !countQueryDuration_app, countQueryDuration_swallowed.
  cbn. lia.
Qed.

(** X11.  A run of the query handler sends no QueryDuration measurement
    when the request names no charger, two when the first item returned
    cannot be read (the measurement after the query and the one of the
    catch block), and one otherwise.  An item without metadata, or with a
    null one, cannot be read and gives the 500 response. *)
Theorem query_duration_count event env w :
  Traces.countQueryDuration (effects (QueryService.handler event env w))
  = (Traces.countQueryDuration (trace w)
     + match QueryService.requestedChargerId event with
       | None => 0
       | Some cid =>
           if String.eqb cid "" then 0
           else
             match dynamoQuery env (awaits w) (QueryService.TABLE_NAME env) cid with
             | Normal (Some (storedEvent :: _)) =>
                 match QueryService.formatResponse storedEvent with
                 | Normal _ => 1
                 | Throw _ => 2
                 end
             | _ => 1
             end
       end)%nat
  /\ (forall fields,
        prop fields "metadata" = JUndefined \/ prop fields "metadata" = JNull ->
        exists e, QueryService.formatResponse (JObj fields) = Throw e).
Proof.
  split.
  - unfold effects.
    destruct (QueryService.requestedChargerId event) as [cid|] eqn:Hc.
    2:{ rewrite query_bad_request by (left; exact Hc). cbn [snd]. lia. }
    destruct (String.eqb cid "") eqn:Hne.
    { apply String.eqb_eq in Hne. subst cid.
      rewrite query_bad_request by (right; exact Hc). cbn [snd]. lia. }
    unfold QueryService.handler.
    unfold bind at 1. unfold Date_now at 1. cbv beta iota.
    unfold try_catch. rewrite Hc, Hne.
    unfold bind at 1. unfold ask at 1. cbv beta iota.
    unfold bind at 1. unfold send at 1.
    destruct (dynamoQuery env (awaits w) (QueryService.TABLE_NAME env) cid)
      as [items|e]; cbv beta iota.
    + unfold bind at 1. unfold bind at 1. unfold Date_now at 1. cbv beta iota.
      unfold ret at 1. cbv beta iota.
      unfold bind at 1.
      match goal with
      | |- context [QueryService.publishQueryMetrics ?d env ?wd] =>
          pose proof (publishQueryMetrics_count d env wd) as Hp;
          destruct (QueryService.publishQueryMetrics d env wd) as [[[]|e1] w1] eqn:Ep
      end.
      2:{ rewrite publishQueryMetrics_run in Ep. discriminate. }
      cbn [snd trace] in Hp. rewrite countQueryDuration_app in Hp. cbn in Hp.
      destruct items as [[|storedEvent rest]|].
      * cbn [snd ret]. lia.
      * unfold bind, lift.
        destruct (QueryService.formatResponse storedEvent) as [response|e1].
        -- cbn [snd ret]. lia.
        -- unfold console, Date_now, ret. cbv beta iota.
           match goal with
           | |- context [QueryService.publishQueryMetrics ?d env ?wd] =>
               pose proof (publishQueryMetrics_count d env wd) as Hp2;
               destruct (QueryService.publishQueryMetrics d env wd) as [[[]|e2] w2] eqn:Ep2
           end.
           2:{ rewrite publishQueryMetrics_run in Ep2. discriminate. }
           cbn [snd trace] in Hp2 |- *. rewrite countQueryDuration_app in Hp2.
           cbn in Hp2. lia.
      * cbn [snd ret]. lia.
    + unfold bind, console, Date_now, ret. cbv beta iota.
      match goal with
      | |- context [QueryService.publishQueryMetrics ?d env ?wd] =>
          pose proof (publishQueryMetrics_count d env wd) as Hp;
          destruct (QueryService.publishQueryMetrics d env wd) as [[[]|e1] w1] eqn:Ep
      end.
      2:{ rewrite publishQueryMetrics_run in Ep. discriminate. }
      cbn [snd trace] in Hp |- *. rewrite !countQueryDuration_app in Hp.
      cbn in Hp. lia.
  - intros fields [H | H]; rewrite formatResponse_object, H; cbn; eauto.
Qed.

Lemma query_duration_count_witness :
  exists e,
    QueryService.formatResponse
      (JObj [("chargerId", JStr "CHG001");
             ("timestamp", JStr "2024-01-15T10:30:00.000Z")]) = Throw e.
Proof.
  apply (proj2 (query_duration_count {| QueryService.pathParameters := None |}
                  Sample.env Sample.world)).
  left. reflexivity.
Defined.

Lemma formatResponse_toItem se :
  QueryService.formatResponse (Traces.toItem se)
  = Normal {| QueryService.qr_chargerId := JStr (se_chargerId se);
              QueryService.qr_timestamp := JStr (se_timestamp se);
              QueryService.qr_data := se_data se;
              QueryService.qr_receivedAt := JStr (sm_receivedAt (se_metadata se));
              QueryService.qr_processedAt := JStr (sm_processedAt (se_metadata se)) |}.
Proof. reflexivity. Qed.

(** X12.  What the processor writes is what the query returns: when the
    table answers a query with the record that [enrichEvent] followed by
    [toStoredEvent] made of a validated event of timestamp [t], the
    response is 200 with the event's chargerId, the ISO string of [t]
    (which reads back as [t]), the event's data, and one write-time
    string as both receivedAt and processedAt; the eventId and the ttl
    are not part of it. *)
Theorem query_returns_stored_event event cid v t se env1 w1 w1' rest env w :
  ve_timestamp v = Some t -> inTimeRange t = true ->
  bind (Processor.enrichEvent v) Processor.toStoredEvent env1 w1 = (Normal se, w1') ->
  QueryService.requestedChargerId event = Some cid -> cid <> "" ->
  dynamoQuery env (awaits w) (QueryService.TABLE_NAME env) cid
  = Normal (Some (Traces.toItem se :: rest)) ->
  exists written,
    fst (QueryService.handler event env w)
    = Normal {| QueryService.statusCode := 200;
                QueryService.headers := [("Content-Type", "application/json")];
                QueryService.body :=
                  QueryService.Found
                    {| QueryService.qr_chargerId := JStr (ve_chargerId v);
                       QueryService.qr_timestamp := JStr (isoString t);
                       QueryService.qr_data := ve_data v;
                       QueryService.qr_receivedAt := JStr written;
                       QueryService.qr_processedAt := JStr written |} |}
    /\ newDate env (isoString t) = Some t.
Proof.
  intros Ht Hr Hs Hc Hne Hq. apply String.eqb_neq in Hne.
  unfold bind in Hs. rewrite enrichEvent_run in Hs.
  rewrite (toStoredEvent_run _ t (time w1) (time w1)) in Hs by (cbn; auto).
  injection Hs as <- _.
  exists (isoString (time w1)). split.
  - rewrite query_handler_result, Hc, Hne, Hq, formatResponse_toItem. reflexivity.
  - apply newDate_isoString. exact Hr.
Qed.

(** ** The health check's sub-checks *)

(** X13.  The store check answers healthy exactly when DescribeTable
    succeeds and reports the status ACTIVE, in these very letters; any
    other status, no status and a failed call all give unhealthy, and
    the check itself never throws. *)
Theorem store_check_healthy_iff_active env w :
  (exists st w', Health.checkDynamoDBHealth env w = (Normal st, w'))
  /\ (fst (Health.checkDynamoDBHealth env w) = Normal Health.healthy <->
      dynamoDescribe env (awaits w) (Health.TABLE_NAME env) = Normal (Some "ACTIVE"))
  /\ (fst (Health.checkDynamoDBHealth env w) <> Normal Health.healthy ->
      fst (Health.checkDynamoDBHealth env w) = Normal Health.unhealthy).
Proof.
  destruct (checkDynamoDBHealth_run env w) as (w' & Hr & _).
  split; [eauto|]. rewrite Hr. cbn [fst].
  destruct (dynamoDescribe env (awaits w) (Health.TABLE_NAME env)) as [[st|]|e].
  - destruct (String.eqb st "ACTIVE") eqn:E.
    + apply String.eqb_eq in E. subst st. split; [split; reflexivity|].
      intros H. contradiction H. reflexivity.
    + apply String.eqb_neq in E. split; [|reflexivity].
      split; [discriminate | intros H; injection H as ->; contradiction E; reflexivity].
  - split; [split; discriminate | reflexivity].
  - split; [split; discriminate | reflexivity].
Qed.

Lemma store_check_healthy_iff_active_witness :
  fst (Health.checkDynamoDBHealth Sample.envStoreDown Sample.world)
  = Normal Health.unhealthy.
Proof.
  apply (proj2 (proj2 (store_check_healthy_iff_active Sample.envStoreDown Sample.world))).
  discriminate.
Defined.

Lemma checkDLQHealth_trace env w :
  exists w',
    Health.checkDLQHealth env w = (Normal (Checks.dlqAnswer env w), w')
    /\ (Health.noDLQ env = true -> w' = w)
    /\ (Health.noDLQ env = false ->
        exists url,
          env_DLQ_URL env = Some url
          /\ trace w'
             = (trace w ++ [Sent (GetQueueAttributes url)]
                ++ match sqsAttributes env (awaits w) url with
                   | Normal _ => []
                   | Throw _ => [Console "error" "Error checking DLQ health:"]
                   end)%list).
Proof.
  unfold Health.checkDLQHealth, Checks.dlqAnswer, Health.noDLQ, try_catch, bind, ask,
    send, console, ret.
  destruct (env_DLQ_URL env) as [url|].
  2:{ exists w. split; [reflexivity|]. split; [intros _; reflexivity | discriminate]. }
  destruct (String.eqb url "").
  { exists w. split; [reflexivity|]. split; [intros _; reflexivity | discriminate]. }
  destruct (sqsAttributes env (awaits w) url) as [a|e] eqn:Eq; eexists;
    (split; [reflexivity|]); (split; [discriminate|]); intros _; exists url;
    (split; [reflexivity|]); rewrite Eq; cbn [trace]; rewrite <- ?app_assoc;
    reflexivity.
Qed.

(** X14.  Without a dead-letter queue (DLQ_URL unset or empty) the
    health check never calls the queue service and its response names
    neither [dlq] nor [dlqDepth]; with one it sends exactly one
    GetQueueAttributes for that URL and reports both. *)
Theorem health_dlq_components env w :
  exists r w',
    Health.handler env w = (Normal r, w')
    /\ (Health.noDLQ env = true ->
        Health.dlq (Health.components (Health.body r)) = None
        /\ Health.dlqDepth (Health.components (Health.body r)) = None
        /\ filter Traces.isGetQueueAttributes (trace w')
           = filter Traces.isGetQueueAttributes (trace w))
    /\ (Health.noDLQ env = false ->
        exists url dl depth,
          env_DLQ_URL env = Some url
          /\ Health.dlq (Health.components (Health.body r)) = Some dl
          /\ Health.dlqDepth (Health.components (Health.body r)) = Some depth
          /\ dl = (if Health.gt10 depth then Health.degraded else Health.healthy)
          /\ filter Traces.isGetQueueAttributes (trace w')
             = (filter Traces.isGetQueueAttributes (trace w)
                ++ [Sent (GetQueueAttributes url)])%list).
Proof.
  assert (Hstore : exists st w1,
             Health.checkDynamoDBHealth env w = (Normal st, w1)
             /\ awaits w1 = S (awaits w)
             /\ filter Traces.isGetQueueAttributes (trace w1)
                = filter Traces.isGetQueueAttributes (trace w)).
  { unfold Health.checkDynamoDBHealth, try_catch, bind, ask, send, console, ret.
    destruct (dynamoDescribe env (awaits w) (Health.TABLE_NAME env)) as [[st|]|e];
      [destruct (String.eqb st "ACTIVE")| |]; do 2 eexists;
      (split; [reflexivity|]); (split; [reflexivity|]); cbn [trace];
      rewrite !filter_app; cbn; rewrite ?app_nil_r; reflexivity. }
  destruct Hstore as (st & w1 & Hs & _ & Hf1).
  assert (Hh : Health.handler env w
               = (let '(r, w2) := Health.checkDLQHealth env w1 in
                  match r with
                  | Normal dlqHealth =>
                      (Normal
                         {| Health.statusCode := 200;
                            Health.headers := Health.jsonHeaders;
                            Health.body :=
                              {| Health.status :=
                                   if Health.Status_eqb st Health.unhealthy
                                   then Health.unhealthy
                                   else if Health.Status_eqb (fst dlqHealth) Health.degraded
                                        then Health.degraded else Health.healthy;
                                 Health.components :=
                                   if Health.noDLQ env then
                                     {| Health.dynamodb := st; Health.dlq := None;
                                        Health.dlqDepth := None |}
                                   else
                                     {| Health.dynamodb := st;
                                        Health.dlq := Some (fst dlqHealth);
                                        Health.dlqDepth := Some (snd dlqHealth) |} |} |},
                       w2)
                  | Throw e => (Throw e, w2)
                  end)).
  { unfold Health.handler, try_catch. unfold bind at 1. rewrite Hs.
    unfold bind at 1.
    destruct (checkDLQHealth_trace env w1) as (w2 & Hd & _). rewrite Hd.
    reflexivity. }
  destruct (checkDLQHealth_trace env w1) as (w2 & Hd & Hn & Hy).
  rewrite Hd in Hh.
  eexists. exists w2. split; [exact Hh|].
  cbn [Health.body Health.components]. split.
  - intros E. rewrite E. cbn [Health.dlq Health.dlqDepth].
    repeat split. rewrite (Hn E). exact Hf1.
  - intros E. rewrite E. cbn [Health.dlq Health.dlqDepth].
    destruct (Hy E) as (url & Hu & Ht).
    exists url, (fst (Checks.dlqAnswer env w1)), (snd (Checks.dlqAnswer env w1)).
    repeat split; auto.
    + apply dlqAnswer_status.
    + rewrite Ht, !filter_app, Hf1. cbn [filter Traces.isGetQueueAttributes].
      destruct (sqsAttributes env (awaits w1) url); cbn; rewrite ?app_nil_r; reflexivity.
Qed.

Lemma health_dlq_components_witness :
  exists r w',
    Health.handler Sample.envNoDLQ Sample.world = (Normal r, w')
    /\ Health.dlq (Health.components (Health.body r)) = None
    /\ filter Traces.isGetQueueAttributes (trace w') = [].
Proof.
  destruct (health_dlq_components Sample.envNoDLQ Sample.world) as (r & w' & Hr & Hn & _).
  destruct (Hn eq_refl) as (H1 & _ & H3).
  exists r, w'. repeat split; assumption.
Defined.

(** ** Reading the depth of the dead-letter queue *)

Lemma digitChar_not_white d : 0 <= d <= 9 -> Health.isWhiteSpace (digitChar d) = false.
Proof.
  intros H.
  assert (C : d = 0 \/ d = 1 \/ d = 2 \/ d = 3 \/ d = 4 \/ d = 5 \/ d = 6
              \/ d = 7 \/ d = 8 \/ d = 9) by lia.
  repeat destruct C as [C | C]; subst d; reflexivity.
Qed.

Lemma leadingDigits_stop acc seen rest :
  Traces.noDigitAhead rest = true -> Health.leadingDigits acc seen rest = (acc, seen).
Proof.
  destruct rest as [|c rest]; cbn; [reflexivity|].
  destruct (digitVal c); [discriminate | reflexivity].
Qed.

Lemma leadingDigits_fmtDigits w : forall acc seen v rest,
  0 <= v -> Traces.noDigitAhead rest = true ->
  Health.leadingDigits acc seen (fmtDigits (S w) v ++ rest)
  = (acc * 10 ^ Z.of_nat (S w) + v mod 10 ^ Z.of_nat (S w), true).
Proof.
  induction w as [|w IH]; intros acc seen v rest Hv Hr.
  - cbn [fmtDigits String.append Health.leadingDigits].
    rewrite digitVal_digitChar
      by (pose proof (Z.mod_pos_bound (v / 10 ^ Z.of_nat 0) 10); lia).
    rewrite leadingDigits_stop by assumption.
    change (10 ^ Z.of_nat 0) with 1. change (10 ^ Z.of_nat 1) with 10.
    rewrite Z.div_1_r. f_equal. lia.
  - change (fmtDigits (S (S w)) v)
      with (String (digitChar ((v / 10 ^ Z.of_nat (S w)) mod 10)) (fmtDigits (S w) v)).
    cbn [String.append Health.leadingDigits].
    rewrite digitVal_digitChar
      by (pose proof (Z.mod_pos_bound (v / 10 ^ Z.of_nat (S w)) 10); lia).
    rewrite IH by assumption. f_equal.
    assert (Hp : 0 < 10 ^ Z.of_nat (S w)) by (apply Z.pow_pos_nonneg; lia).
    rewrite (Nat2Z.inj_succ (S w)), Z.pow_succ_r by lia.
    rewrite (Z.mul_comm 10 (10 ^ Z.of_nat (S w))).
    rewrite Z.rem_mul_r by lia. lia.
Qed.

Lemma skipWhiteSpace_digit d rest :
  0 <= d <= 9 ->
  Health.skipWhiteSpace (String (digitChar d) rest) = String (digitChar d) rest.
Proof.
  intros H.
  assert (C : d = 0 \/ d = 1 \/ d = 2 \/ d = 3 \/ d = 4 \/ d = 5 \/ d = 6
              \/ d = 7 \/ d = 8 \/ d = 9) by lia.
  repeat destruct C as [C | C]; subst d;
    destruct rest as [|c2 [|c3 rest3]]; reflexivity.
Qed.

Lemma parseInt10_numeral w v rest :
  0 <= v < 10 ^ Z.of_nat (S w) -> Traces.noDigitAhead rest = true ->
  Health.parseInt10 (fmtDigits (S w) v ++ rest) = Some v.
Proof.
  intros Hv Hr. unfold Health.parseInt10.
  assert (Hd : 0 <= (v / 10 ^ Z.of_nat w) mod 10 <= 9)
    by (pose proof (Z.mod_pos_bound (v / 10 ^ Z.of_nat w) 10); lia).
  assert (Hs : Health.skipWhiteSpace (fmtDigits (S w) v ++ rest)
               = fmtDigits (S w) v ++ rest).
  { cbn [fmtDigits String.append]. apply skipWhiteSpace_digit. exact Hd. }
  rewrite Hs.
  assert (Hm : match fmtDigits (S w) v ++ rest with
               | String c rest0 =>
                   if Ascii.eqb c "-" then (-1, rest0)
                   else if Ascii.eqb c "+" then (1, rest0)
                   else (1, fmtDigits (S w) v ++ rest)
               | EmptyString => (1, fmtDigits (S w) v ++ rest)
               end = (1, fmtDigits (S w) v ++ rest)).
  { cbn [fmtDigits String.append].
    rewrite !digitChar_not_sign by auto. reflexivity. }
  rewrite Hm. rewrite leadingDigits_fmtDigits by (lia || assumption).
  rewrite Z.mod_small by lia. f_equal. lia.
Qed.

(** X15.  With a dead-letter queue configured, the depth is what
    [parseInt] reads in the attribute: a missing or empty attribute is
    depth 0; a run of decimal digits (leading zeros allowed) whose value
    is below 2^53, whatever follows it, is its value, degraded exactly
    above 10; an attribute in which no number can be read after its
    leading white space and sign is NaN, which is healthy. *)
Theorem dlq_depth_reading env w url :
  env_DLQ_URL env = Some url -> url <> "" ->
  (sqsAttributes env (awaits w) url = Normal None
   \/ sqsAttributes env (awaits w) url = Normal (Some "") ->
   fst (Health.checkDLQHealth env w) = Normal (Health.healthy, Some 0))
  /\ (forall k v rest,
        sqsAttributes env (awaits w) url = Normal (Some (fmtDigits (S k) v ++ rest)) ->
        0 <= v < 10 ^ Z.of_nat (S k) -> v < 2 ^ 53 ->
        Traces.noDigitAhead rest = true ->
        fst (Health.checkDLQHealth env w)
        = Normal (if 10 <? v then Health.degraded else Health.healthy, Some v))
  /\ (forall a,
        sqsAttributes env (awaits w) url = Normal (Some a) -> a <> "" ->
        Health.parseInt10 a = None ->
        fst (Health.checkDLQHealth env w) = Normal (Health.healthy, None)).
Proof.
  intros Hu Hne. apply String.eqb_neq in Hne.
  destruct (checkDLQHealth_run env w) as (w' & Hr). rewrite Hr. cbn [fst].
  unfold Checks.dlqAnswer, Health.noDLQ. rewrite Hu, Hne.
  split; [|split].
  - intros [H | H]; rewrite H; reflexivity.
  - intros k v rest H Hv _ Hd. rewrite H.
    assert (Ho : Health.orZero (Some (fmtDigits (S k) v ++ rest))
                 = fmtDigits (S k) v ++ rest) by reflexivity.
    rewrite Ho, parseInt10_numeral by assumption. reflexivity.
  - intros a H Ha Hp. rewrite H.
    assert (Ho : Health.orZero (Some a) = a).
    { unfold Health.orZero. apply String.eqb_neq in Ha. rewrite Ha. reflexivity. }
    rewrite Ho, Hp. reflexivity.
Qed.

(** Eleven messages, written "011 messages": degraded with depth 11.  A
    no-break space before the digits is white space. *)
Lemma dlq_depth_reading_witness :
  fst (Health.checkDLQHealth
         (Traces.withQueueAnswer (Normal (Some "011 messages")) Sample.env) Sample.world)
  = Normal (Health.degraded, Some 11).
Proof.
  exact (proj1 (proj2 (dlq_depth_reading
                         (Traces.withQueueAnswer (Normal (Some "011 messages")) Sample.env)
                         Sample.world _ eq_refl ltac:(discriminate)))
           2%nat 11 " messages" eq_refl ltac:(lia) ltac:(lia) eq_refl).
Defined.

Example parseInt10_no_break_space :
  Health.parseInt10 (String "194" (String "160" "12")) = Some 12
  /\ Health.parseInt10 (String "239" (String "187" (String "191" " -7x"))) = Some (-7)
  /\ Health.parseInt10 "n/a" = None.
Proof. repeat split. Qed.

(** ** The logger *)

Lemma assoc_setProp k v fields k' :
  assoc k' (Logger.setProp k v fields)
  = if String.eqb k k' then Some v else assoc k' fields.
Proof.
  induction fields as [|[k0 v0] rest IH]; cbn.
  - reflexivity.
  - destruct (String.eqb k0 k) eqn:E0; cbn.
    + apply String.eqb_eq in E0. subst k0.
      destruct (String.eqb k k'); reflexivity.
    + rewrite IH. destruct (String.eqb k0 k') eqn:E1; [|reflexivity].
      apply String.eqb_eq in E1. subst k0. rewrite String.eqb_sym, E0. reflexivity.
Qed.

Lemma assoc_app k (l1 l2 : list (string * JsValue)) :
  assoc k (l1 ++ l2)
  = match assoc k l1 with Some v => Some v | None => assoc k l2 end.
Proof.
  induction l1 as [|[k0 v0] l1 IH]; cbn; [reflexivity|].
  destruct (String.eqb k0 k); [reflexivity | exact IH].
Qed.

Lemma assoc_spread k source : forall target,
  assoc k (Logger.spread source target)
  = match Logger.lastBinding k source with
    | Some v => Some v
    | None => assoc k target
    end.
Proof.
  unfold Logger.spread, Logger.lastBinding.
  induction source as [|[k0 v0] source IH]; intros target; cbn [fold_left rev].
  - reflexivity.
  - rewrite IH, assoc_app. cbn [fst snd assoc].
    destruct (assoc k (rev source)); [reflexivity|].
    rewrite assoc_setProp. destruct (String.eqb k0 k); reflexivity.
Qed.

(** X16.  In a log entry a property of the logger's context replaces the
    timestamp, level or message written by [log] under the same name, and
    the [data] argument replaces a [data] of the context; a falsy [data]
    (undefined, null, false, 0, NaN, the empty string) is not logged at
    all, so that the context's [data], if any, shows instead. *)
Theorem logEntry_properties context now level message data k :
  prop (Logger.logEntry context now level message data) k
  = if String.eqb k "data" && truthy data then data
    else match Logger.lastBinding k context with
         | Some v => v
         | None => prop (Traces.ownFields now level message) k
         end.
Proof.
  unfold prop, Logger.logEntry. fold (Traces.ownFields now level message).
  destruct (truthy data) eqn:Ht.
  - rewrite assoc_spread. unfold Logger.lastBinding at 1. cbn [rev app assoc].
    rewrite (String.eqb_sym k "data").
    destruct (String.eqb "data" k); cbn [andb]; [reflexivity|].
    rewrite assoc_spread. destruct (Logger.lastBinding k context); reflexivity.
  - rewrite andb_false_r, assoc_spread.
    destruct (Logger.lastBinding k context); reflexivity.
Qed.

(** ** What is stored passes validation again *)

(** X17.  The three timestamp strings of a record that [toStoredEvent]
    returns are canonical: each one passes [isValidTimestamp], on any
    host, and reads back by [new Date] as the Date it was written from
    (the Dates of the processed event being NaN or in range, as every
    Date is). *)
Theorem stored_timestamps_are_canonical p se env w w' env' :
  Processor.toStoredEvent p env w = (Normal se, w') ->
  Traces.validDate (pe_timestamp p) = true ->
  Traces.validDate (pm_receivedAt (pe_metadata p)) = true ->
  Traces.validDate (pm_processedAt (pe_metadata p)) = true ->
  isValidTimestamp env' (JStr (se_timestamp se)) = true
  /\ isValidTimestamp env' (JStr (sm_receivedAt (se_metadata se))) = true
  /\ isValidTimestamp env' (JStr (sm_processedAt (se_metadata se))) = true
  /\ newDate env' (se_timestamp se) = pe_timestamp p
  /\ newDate env' (sm_receivedAt (se_metadata se)) = pm_receivedAt (pe_metadata p)
  /\ newDate env' (sm_processedAt (se_metadata se)) = pm_processedAt (pe_metadata p).
Proof.
  intros H Ht Hr Hq.
  destruct (pe_timestamp p) as [t|] eqn:Et.
  2:{ unfold Processor.toStoredEvent, bind, lift, Date_now in H. rewrite Et in H.
      discriminate. }
  destruct (pm_receivedAt (pe_metadata p)) as [r|] eqn:Er.
  2:{ unfold Processor.toStoredEvent, bind, lift, Date_now in H. rewrite Et, Er in H.
      discriminate. }
  destruct (pm_processedAt (pe_metadata p)) as [q|] eqn:Eq.
  2:{ unfold Processor.toStoredEvent, bind, lift, Date_now in H.
      rewrite Et, Er, Eq in H. discriminate. }
  rewrite (toStoredEvent_run p t r q env w Et Er Eq) in H. injection H as <- _.
  cbn [Traces.validDate] in Ht, Hr, Hq.
  cbn [se_timestamp se_metadata sm_receivedAt sm_processedAt].
  repeat split;
    try (apply isValidTimestamp_iff_serialization; eauto);
    apply newDate_isoString; assumption.
Qed.

Lemma stored_timestamps_are_canonical_witness :
  isValidTimestamp Sample.env (JStr "2024-01-15T10:30:00.000Z") = true
  /\ newDate Sample.env "2024-01-15T10:30:00.000Z" = Some 1705314600000.
Proof.
  assert (H : Processor.toStoredEvent
                {| pe_eventId := "id"; pe_chargerId := "CHG001";
                   pe_timestamp := Some 1705314600000; pe_data := Sample.voltage;
                   pe_metadata := {| pm_receivedAt := Some 1705314600000;
                                     pm_processedAt := Some 1705314600000 |} |}
                Sample.env Sample.world
              = (Normal (Traces.storedOf Sample.validated 1705314600000 1705314600000
                           "id"), Sample.world))
    by (vm_compute; reflexivity).
  pose proof (fun a b c =>
                stored_timestamps_are_canonical _ _ _ _ _ Sample.env H a b c) as K.
  destruct (K eq_refl eq_refl eq_refl) as (H1 & _ & _ & H4 & _).
  split; [exact H1 | exact H4].
Defined.

(** ** A rejected event in the metrics *)



(** ** Sample runs of the query handler *)

Lemma query_found_first_item_witness :
  fst (QueryService.handler
         {| QueryService.pathParameters := Some [("chargerId", "CHG001")] |}
         (Traces.withQueryAnswer
            (Normal (Some [JObj [("chargerId", JStr "CHG001");
                                 ("metadata", JObj [("receivedAt", JStr "r")])];
                           JNull]))
            Sample.env)
         Sample.world)
  = Normal {| QueryService.statusCode := 200;
              QueryService.headers := [("Content-Type", "application/json")];
              QueryService.body :=
                QueryService.Found
                  {| QueryService.qr_chargerId := JStr "CHG001";
                     QueryService.qr_timestamp := JUndefined;
                     QueryService.qr_data := JUndefined;
                     QueryService.qr_receivedAt := JStr "r";
                     QueryService.qr_processedAt := JUndefined |} |}.
Proof.
  apply (query_found_first_item
           {| QueryService.pathParameters := Some [("chargerId", "CHG001")] |} "CHG001"
           [("chargerId", JStr "CHG001"); ("metadata", JObj [("receivedAt", JStr "r")])]
           [("receivedAt", JStr "r")] [JNull]);
    try reflexivity. discriminate.
Defined.

(** The record made of the sample event. *)
Lemma sample_event_stored :
  bind (Processor.enrichEvent Sample.validated) Processor.toStoredEvent
    Sample.env Sample.world
  = (Normal (Traces.storedOf Sample.validated 1705314600000 1705314600000
               "6f1c0a52-0000-4000-8000-000000000000"),
     {| time := 1705314600000; awaits := 0; draws := 1; trace := [] |}).
Proof. vm_compute. reflexivity. Qed.

Lemma query_returns_stored_event_witness :
  exists written,
    fst (QueryService.handler
           {| QueryService.pathParameters := Some [("chargerId", "CHG001")] |}
           (Traces.withQueryAnswer
              (Normal (Some [Traces.toItem
                               (Traces.storedOf Sample.validated 1705314600000
                                  1705314600000
                                  "6f1c0a52-0000-4000-8000-000000000000")]))
              Sample.env)
           Sample.world)
    = Normal {| QueryService.statusCode := 200;
                QueryService.headers := [("Content-Type", "application/json")];
                QueryService.body :=
                  QueryService.Found
                    {| QueryService.qr_chargerId := JStr "CHG001";
                       QueryService.qr_timestamp := JStr (isoString 1705314600000);
                       QueryService.qr_data := Sample.voltage;
                       QueryService.qr_receivedAt := JStr written;
                       QueryService.qr_processedAt := JStr written |} |}
    /\ newDate
         (Traces.withQueryAnswer
            (Normal (Some [Traces.toItem
                             (Traces.storedOf Sample.validated 1705314600000
                                1705314600000
                                "6f1c0a52-0000-4000-8000-000000000000")]))
            Sample.env)
         (isoString 1705314600000) = Some 1705314600000.
Proof.
  exact (query_returns_stored_event
           {| QueryService.pathParameters := Some [("chargerId", "CHG001")] |} "CHG001"
           Sample.validated 1705314600000 _ _ _ _ []
           (Traces.withQueryAnswer
              (Normal (Some [Traces.toItem
                               (Traces.storedOf Sample.validated 1705314600000
                                  1705314600000
                                  "6f1c0a52-0000-4000-8000-000000000000")]))
              Sample.env)
           Sample.world
           eq_refl eq_refl sample_event_stored eq_refl ltac:(discriminate) eq_refl).
Defined.
